(** * Heart-rate metrics store: buffering, date partitions and minute queries

    A shallow embedding of [core/storage.py] (class [DataStorage]),
    [core/config.py], [core/models.py] and [core/api.py], with the
    properties of the storage and query engine proved over it.

    Layout:
    - [Text]: the string operations the code applies to timestamps;
    - [Calendar]: proleptic Gregorian dates, as [datetime] and polars use;
    - [Iso]: [datetime.fromisoformat], polars [strptime] and [strftime];
    - [Frame]: the data-frame operations of the query (sort, group, mean);
    - [Storage]: the class itself, as state passing over buffer, lock and
      partition files;
    - [Crash]: the file writes of a flush, one at a time;
    - [Spec]: the notions the properties are stated with;
    - [Samples]: the data of the examples;
    - [Select]: the stored rows a query selects;
    - [Api]: the request models of [core/models.py] and the handlers of
      [core/api.py];
    - the properties, first of the write path, then of the read path,
      then from ingestion to the answer and of the endpoints. *)

From Stdlib Require Import ZArith List String Ascii Bool Lia QArith Qround Qcanon.
From Stdlib Require Import Permutation Sorted.
From stdpp Require Import base option gmap strings.

Import ListNotations.
Local Open Scope string_scope.
Local Open Scope list_scope.
Local Open Scope Z_scope.

(* ===================================================================== *)
(** ** Text: string operations *)
(* ===================================================================== *)

Module Text.

(** [str.replace("Z", "+00:00")] of Python: every occurrence. *)
Fixpoint py_replace_Z (s : string) : string :=
  match s with
  | EmptyString => EmptyString
  | String c s' =>
      if Ascii.eqb c "Z" then "+00:00" +:+ py_replace_Z s'
      else String c (py_replace_Z s')
  end.

(** [Expr.str.replace("Z", "+00:00")] of polars: the first match only. *)
Fixpoint pl_replace_Z (s : string) : string :=
  match s with
  | EmptyString => EmptyString
  | String c s' =>
      if Ascii.eqb c "Z" then "+00:00" +:+ s'
      else String c (pl_replace_Z s')
  end.

(** Decimal digit of a value in 0..9. *)
Definition digit (n : Z) : ascii := ascii_of_nat (48 + Z.to_nat n).

(** The [k] lowest decimal digits of [n], most significant first. *)
Fixpoint digits (k : nat) (n : Z) : string :=
  match k with
  | O => EmptyString
  | S k' => digits k' (n / 10) +:+ String (digit (n mod 10)) EmptyString
  end.

Definition digit_val (c : ascii) : option Z :=
  let n := Z.of_nat (nat_of_ascii c) in
  if (48 <=? n) && (n <=? 57) then Some (n - 48) else None.

(** Read exactly [k] decimal digits. *)
Fixpoint take_digits (k : nat) (acc : Z) (s : string) : option (Z * string) :=
  match k with
  | O => Some (acc, s)
  | S k' =>
      match s with
      | String c s' =>
          match digit_val c with
          | Some d => take_digits k' (acc * 10 + d) s'
          | None => None
          end
      | EmptyString => None
      end
  end.

Definition expect (c : ascii) (s : string) : option string :=
  match s with
  | String c' s' => if Ascii.eqb c c' then Some s' else None
  | EmptyString => None
  end.

(** Number of decimal digits of [n >= 0] ([fuel] bounds the recursion). *)
Fixpoint ndigits_fuel (fuel : nat) (n : Z) : nat :=
  match fuel with
  | O => 1
  | S f => if n <? 10 then 1%nat else S (ndigits_fuel f (n / 10))
  end.

Definition ndigits (n : Z) : nat := ndigits_fuel (Z.to_nat (Z.log2 n)) n.

End Text.

(* ===================================================================== *)
(** ** Calendar: days and civil dates *)
(* ===================================================================== *)

Module Calendar.

Definition is_leap (y : Z) : bool :=
  (y mod 4 =? 0) && (negb (y mod 100 =? 0) || (y mod 400 =? 0)).

Definition days_in_month (y m : Z) : Z :=
  if m =? 2 then (if is_leap y then 29 else 28)
  else if (m =? 4) || (m =? 6) || (m =? 9) || (m =? 11) then 30
  else 31.

Definition valid_date (y m d : Z) : bool :=
  (1 <=? m) && (m <=? 12) && (1 <=? d) && (d <=? days_in_month y m).

(** Day number of a civil date, day 0 being 1970-01-01. Years start in
    March inside the computation, so that the leap day is the last day. *)
Definition days_from_civil (y m d : Z) : Z :=
  let y' := if m <=? 2 then y - 1 else y in
  let era := y' / 400 in
  let yoe := y' - era * 400 in
  let mp := if m <=? 2 then m + 9 else m - 3 in
  let doy := (153 * mp + 2) / 5 + d - 1 in
  let doe := yoe * 365 + yoe / 4 - yoe / 100 + doy in
  era * 146097 + doe - 719468.

(** Civil date of a day number. *)
Definition civil_from_days (z : Z) : Z * Z * Z :=
  let z' := z + 719468 in
  let era := z' / 146097 in
  let doe := z' - era * 146097 in
  let yoe := (doe - doe / 1460 + doe / 36524 - doe / 146096) / 365 in
  let doy := doe - (365 * yoe + yoe / 4 - yoe / 100) in
  let mp := (5 * doy + 2) / 153 in
  let d := doy - (153 * mp + 2) / 5 + 1 in
  let m := if mp <? 10 then mp + 3 else mp - 9 in
  let y := yoe + era * 400 in
  ((if m <=? 2 then y + 1 else y), m, d).

(** [date.max] of Python, 9999-12-31: adding a day to it raises. *)
Definition max_day : Z := Eval cbv in days_from_civil 9999 12 31.

End Calendar.

(* ===================================================================== *)
(** ** Iso: parsing and printing of timestamps *)
(* ===================================================================== *)

Module Iso.
Import Text Calendar.

(** What [datetime.fromisoformat] returns: the fields as written, and
    the UTC offset in minutes when the string carries one. *)
Record datetime := mk_datetime {
  dt_year : Z; dt_month : Z; dt_day : Z;
  dt_hour : Z; dt_minute : Z; dt_second : Z;
  dt_utcoffset : option Z
}.

(** [YYYY-MM-DD], a date of the calendar. *)
Definition parse_date (s : string) : option (Z * Z * Z * string) :=
  '(y, s) ← take_digits 4 0 s;
  s ← expect "-" s;
  '(m, s) ← take_digits 2 0 s;
  s ← expect "-" s;
  '(d, s) ← take_digits 2 0 s;
  if valid_date y m d then Some (y, m, d, s) else None.

(** [HH:MM:SS]. *)
Definition parse_time (s : string) : option (Z * Z * Z * string) :=
  '(h, s) ← take_digits 2 0 s;
  s ← expect ":" s;
  '(mi, s) ← take_digits 2 0 s;
  s ← expect ":" s;
  '(sec, s) ← take_digits 2 0 s;
  if (h <=? 23) && (mi <=? 59) && (sec <=? 59) then Some (h, mi, sec, s)
  else None.

(** [+HH:MM] or [-HH:MM], in minutes east of UTC. *)
Definition parse_offset (s : string) : option (Z * string) :=
  match s with
  | String c s =>
      sign ← (if Ascii.eqb c "+" then Some 1
              else if Ascii.eqb c "-" then Some (-1) else None);
      '(h, s) ← take_digits 2 0 s;
      s ← expect ":" s;
      '(mi, s) ← take_digits 2 0 s;
      if (h <=? 23) && (mi <=? 59) then Some (sign * (h * 60 + mi), s)
      else None
  | EmptyString => None
  end.

(** [datetime.fromisoformat], on the extended forms [YYYY-MM-DD],
    [YYYY-MM-DDTHH:MM:SS] and [YYYY-MM-DDTHH:MM:SS+HH:MM]; [None] stands
    for [ValueError]. Years run from 1 to 9999 ([MINYEAR], [MAXYEAR]).
    Only these three forms are modelled: Python parses further ones
    (fractional seconds, [HH] and [HH:MM] times, a separator other than
    [T], offsets with seconds, and from 3.11 the basic and week forms),
    on which this function returns [None] as well. Every string it
    accepts Python accepts, with these fields; a statement that supposes
    a timestamp parses is about timestamps of the three forms. *)
Definition fromisoformat (s : string) : option datetime :=
  '(y, m, d, s) ← parse_date s;
  if y <? 1 then None else
  match s with
  | EmptyString => Some (mk_datetime y m d 0 0 0 None)
  | _ =>
      s ← expect "T" s;
      '(h, mi, sec, s) ← parse_time s;
      match s with
      | EmptyString => Some (mk_datetime y m d h mi sec None)
      | _ =>
          '(off, s) ← parse_offset s;
          match s with
          | EmptyString => Some (mk_datetime y m d h mi sec (Some off))
          | _ => None
          end
      end
  end.

(** [d.isoformat()] of a date, and [dt.strftime("%Y-%m-%d")]. *)
Definition date_iso (y m d : Z) : string :=
  digits 4 y +:+ "-" +:+ digits 2 m +:+ "-" +:+ digits 2 d.

(** [dt.date()] as a day number. *)
Definition date_of (dt : datetime) : Z :=
  days_from_civil (dt_year dt) (dt_month dt) (dt_day dt).

(** [str.strptime(pl.Datetime, format="%Y-%m-%dT%H:%M:%S%z")]: the
    instant in seconds since 1970-01-01T00:00:00 UTC; [None] stands for
    the error polars raises on a string that does not match. *)
Definition strptime (s : string) : option Z :=
  '(y, m, d, s) ← parse_date s;
  s ← expect "T" s;
  '(h, mi, sec, s) ← parse_time s;
  '(off, s) ← parse_offset s;
  match s with
  | EmptyString =>
      Some (days_from_civil y m d * 86400 + h * 3600 + mi * 60 + sec
            - off * 60)
  | _ => None
  end.

(** [dt.truncate("1m")]. *)
Definition truncate_1m (t : Z) : Z := t - t mod 60.

(** [%Y]: four digits from 0000 to 9999, a sign and at least four digits
    outside. *)
Definition fmt_year (y : Z) : string :=
  if (0 <=? y) && (y <=? 9999) then digits 4 y
  else if y <? 0 then "-" +:+ digits (Nat.max 4 (ndigits (- y))) (- y)
  else "+" +:+ digits (Nat.max 4 (ndigits y)) y.

(** [dt.strftime("%Y-%m-%dT%H:%M:%SZ")] of a UTC instant. *)
Definition strftime (t : Z) : string :=
  let sod := t mod 86400 in
  let '(y, m, d) := civil_from_days (t / 86400) in
  fmt_year y +:+ "-" +:+ digits 2 m +:+ "-" +:+ digits 2 d +:+ "T"
  +:+ digits 2 (sod / 3600) +:+ ":" +:+ digits 2 (sod mod 3600 / 60)
  +:+ ":" +:+ digits 2 (sod mod 60) +:+ "Z".

End Iso.

(* ===================================================================== *)
(** ** Frame: the data-frame operations used by the query *)
(* ===================================================================== *)

Module Frame.

(** [DataFrame.sort]: the code calls it without [maintain_order], so the
    order among rows with equal keys is whatever the library's sort
    leaves. A [Sorter] is any sort: it permutes its input and returns it
    ordered by the comparison. *)
Class Sorter := {
  sort_by : forall {A : Type}, (A -> A -> bool) -> list A -> list A;
  sort_by_perm : forall (A : Type) (leb : A -> A -> bool) (l : list A),
      Permutation (sort_by leb l) l;
  sort_by_sorted : forall (A : Type) (leb : A -> A -> bool) (l : list A),
      (forall x y, leb x y = true \/ leb y x = true) ->
      (forall x y z, leb x y = true -> leb y z = true -> leb x z = true) ->
      StronglySorted (fun x y => leb x y = true) (sort_by leb l)
}.

(** Insertion sort, which keeps the input order among equal keys. *)
Fixpoint insert_sorted {A : Type} (leb : A -> A -> bool) (x : A)
    (l : list A) : list A :=
  match l with
  | [] => [x]
  | y :: t => if leb x y then x :: l else y :: insert_sorted leb x t
  end.

Definition isort {A : Type} (leb : A -> A -> bool) (l : list A) : list A :=
  fold_right (insert_sorted leb) [] l.

Section GroupBy.
Context {K A : Type} (eqb : K -> K -> bool) (key : A -> K).

(** Add a row to the group of its key, opening a new group at the end
    when the key is new: groups stay in order of first appearance and
    rows in input order ([group_by(..., maintain_order=True)], and a
    Python [dict] of lists filled in a loop). *)
Fixpoint insert_group (x : A) (gs : list (K * list A))
    : list (K * list A) :=
  match gs with
  | [] => [(key x, [x])]
  | (k, rows) :: gs' =>
      if eqb k (key x) then (k, rows ++ [x]) :: gs'
      else (k, rows) :: insert_group x gs'
  end.

Definition group_by (l : list A) : list (K * list A) :=
  fold_left (fun gs x => insert_group x gs) l [].

(** [GroupBy.first()]: the first row of every group. *)
Definition first_of_groups (gs : list (K * list A)) : list A :=
  flat_map (fun g => match snd g with x :: _ => [x] | [] => [] end) gs.
End GroupBy.

(** [Expr.mean()] of an integer column, as an exact rational. *)
Definition mean (l : list Z) : Q :=
  Qmake (fold_right Z.add 0 l) (Pos.of_nat (length l)).

(** Nearest integer, halves away from zero (the mode shows only at an
    exact half of a hundredth). *)
Definition round_half_away (q : Q) : Z :=
  if Qle_bool 0 q then Qfloor (q + (1 # 2)) else Qceiling (q - (1 # 2)).

(** [Expr.round(2)], in lowest terms. *)
Definition round2 (q : Q) : Q :=
  Qred (Qmake (round_half_away (q * 100)) 100).

End Frame.

(* ===================================================================== *)
(** ** Storage: core/config.py and the class DataStorage *)
(* ===================================================================== *)

Module Storage.
Import Text Calendar Iso Frame.

(** *** core/config.py *)

Definition DEVICE_PRIORITIES : gmap string Z :=
  <["device_a" := 1]> (<["device_b" := 2]> ∅).
Definition DATA_DIR : string := "data".
Definition PARQUET_FILE_PREFIX : string := "heart_rate_metrics".
Definition BATCH_SIZE : Z := 100.
Definition FLUSH_INTERVAL_SECONDS : Z := 5.

(** *** Data *)

(** A buffered record and a row of a partition file: the dict built by
    the ingest functions, the columns of the Parquet schema. *)
Record Row := mk_row {
  device_id : string;
  user_id : string;
  timestamp : string;
  heart_rate : Z;
  date : string
}.

(** An entry of the list given to [ingest_batch]: a dict in which any of
    the four keys may be missing. *)
Record Reading := mk_reading {
  rd_device_id : option string;
  rd_user_id : option string;
  rd_timestamp : option string;
  rd_heart_rate : option Z
}.

(** A dict of the list returned by [query_metrics]. *)
Record Bucket := mk_bucket {
  b_heart_rate : Q;
  b_device_id : string;
  b_timestamp : string
}.

Inductive exn := ValueError | KeyError | OverflowError | ComputeError.

Inductive result (A : Type) : Type :=
| Ok (a : A)
| Err (e : exn).
Arguments Ok {A} a.
Arguments Err {A} e.

(** The object: the bounded deque, the asyncio lock (held or not) and
    the files of [data_dir], by path. *)
Record State := mk_state {
  write_buffer : list Row;
  write_lock : bool;
  files : gmap string (list Row)
}.

Definition set_lock (b : bool) (st : State) : State :=
  mk_state (write_buffer st) b (files st).
Definition set_buffer (buf : list Row) (st : State) : State :=
  mk_state buf (write_lock st) (files st).
Definition set_files (fs : gmap string (list Row)) (st : State) : State :=
  mk_state (write_buffer st) (write_lock st) fs.

(** [DataStorage()]: nothing buffered, lock free; the files are those
    already in the directory. *)
Definition init (fs : gmap string (list Row)) : State := mk_state [] false fs.

(** *** Coroutines as state passing

    A call returns, raises, or never resumes: [asyncio.Lock] is not
    re-entrant, and a task that awaits [acquire] on a lock it holds
    itself waits forever, keeping the lock. *)
Inductive outcome (A : Type) : Type :=
| Returns (a : A) (st : State)
| Raises (e : exn) (st : State)
| Blocks (st : State).
Arguments Returns {A} a st.
Arguments Raises {A} e st.
Arguments Blocks {A} st.

Definition M (A : Type) : Type := State -> outcome A.

Definition ret {A : Type} (a : A) : M A := fun st => Returns a st.
Definition raise {A : Type} (e : exn) : M A := fun st => Raises e st.
Definition bind {A B : Type} (m : M A) (k : A -> M B) : M B :=
  fun st =>
    match m st with
    | Returns a st' => k a st'
    | Raises e st' => Raises e st'
    | Blocks st' => Blocks st'
    end.
Definition modify (f : State -> State) : M unit := fun st => Returns tt (f st).
Definition gets {A : Type} (f : State -> A) : M A := fun st => Returns (f st) st.

#[export] Instance M_ret : MRet M := @ret.
#[export] Instance M_bind : MBind M := fun A B k m => bind m k.

(** [async with self.write_lock: body]. *)
Definition with_lock {A : Type} (body : M A) : M A :=
  fun st =>
    if write_lock st then Blocks st
    else match body (set_lock true st) with
         | Returns a st' => Returns a (set_lock false st')
         | Raises e st' => Raises e (set_lock false st')
         | Blocks st' => Blocks st'
         end.

(** *** The write buffer: [deque(maxlen=BATCH_SIZE * 2)] *)

Definition maxlen : Z := BATCH_SIZE * 2.

(** [deque.append]: at [maxlen] the item at the left end is discarded. *)
Definition deque_append (buf : list Row) (r : Row) : list Row :=
  if maxlen <=? Z.of_nat (length buf) then tl buf ++ [r] else buf ++ [r].

(** [deque.extend]: append the items one by one. *)
Definition deque_extend (buf : list Row) (rs : list Row) : list Row :=
  fold_left deque_append rs buf.

(** *** Flushing *)

Definition file_path (date_str : string) : string :=
  DATA_DIR +:+ "/" +:+ PARQUET_FILE_PREFIX +:+ "_" +:+ date_str
  +:+ ".parquet".

(** One turn of the loop over [records_by_date]: the file becomes its
    old rows followed by the new ones, or the new ones alone. *)
Definition write_group (fs : gmap string (list Row))
    (g : string * list Row) : gmap string (list Row) :=
  let path := file_path (fst g) in
  match fs !! path with
  | Some existing => <[path := existing ++ snd g]> fs
  | None => <[path := snd g]> fs
  end.

(** [_flush_buffer_unlocked]. *)
Definition _flush_buffer_unlocked : M unit :=
  fun st =>
    match write_buffer st with
    | [] => Returns tt st
    | _ =>
        let records_by_date := group_by String.eqb date (write_buffer st) in
        Returns tt
          (mk_state [] (write_lock st)
             (fold_left write_group records_by_date (files st)))
    end.

(** [_flush_buffer]. *)
Definition _flush_buffer : M unit := with_lock _flush_buffer_unlocked.

(** [flush]. *)
Definition flush : M unit := _flush_buffer.

(** *** Ingestion *)

(** [ingest_metric]. *)
Definition ingest_metric (device user ts : string) (hr : Z) : M unit :=
  match fromisoformat (py_replace_Z ts) with
  | None => raise ValueError
  | Some dt =>
      let date_str := date_iso (dt_year dt) (dt_month dt) (dt_day dt) in
      let record := mk_row device user ts hr date_str in
      with_lock (
        modify (fun st => set_buffer (deque_append (write_buffer st) record) st);;
        len ← gets (fun st => Z.of_nat (length (write_buffer st)));
        if BATCH_SIZE <=? len then _flush_buffer else ret tt)
  end.

(** The body of the [try] in [ingest_batch]. *)
Definition to_record (reading : Reading) : result Row :=
  match rd_timestamp reading with
  | None => Err KeyError
  | Some ts =>
      match fromisoformat (py_replace_Z ts) with
      | None => Err ValueError
      | Some dt =>
          let date_str := date_iso (dt_year dt) (dt_month dt) (dt_day dt) in
          match rd_device_id reading, rd_user_id reading,
                rd_heart_rate reading with
          | Some device, Some user, Some hr =>
              Ok (mk_row device user ts hr date_str)
          | _, _, _ => Err KeyError
          end
      end
  end.

(** The [for] loop of [ingest_batch], from the counters and the list of
    records so far: [except (ValueError, KeyError)] counts the entry as
    rejected, any other exception leaves the loop. *)
Fixpoint scan_batch (readings : list Reading) (accepted rejected : Z)
    (records : list Row) : result (Z * Z * list Row) :=
  match readings with
  | [] => Ok (accepted, rejected, records)
  | reading :: rest =>
      match to_record reading with
      | Ok record =>
          scan_batch rest (accepted + 1) rejected (records ++ [record])
      | Err ValueError | Err KeyError =>
          scan_batch rest accepted (rejected + 1) records
      | Err e => Err e
      end
  end.

(** [ingest_batch]. *)
Definition ingest_batch (readings : list Reading) : M (Z * Z) :=
  match scan_batch readings 0 0 [] with
  | Err e => raise e
  | Ok (accepted, rejected, []) => ret (accepted, rejected)
  | Ok (accepted, rejected, records) =>
      with_lock (
        modify (fun st => set_buffer (deque_extend (write_buffer st) records) st);;
        len ← gets (fun st => Z.of_nat (length (write_buffer st)));
        if BATCH_SIZE <=? len then _flush_buffer_unlocked else ret tt);;
      ret (accepted, rejected)
  end.

(** *** Querying *)

(** [current_date.isoformat()] of a day number. *)
Definition day_iso (n : Z) : string :=
  let '(y, m, d) := civil_from_days n in date_iso y m d.

(** The loop of [_get_files_in_range], [n] turns from [current]: one
    turn per day. The step to the next day raises on [date.max]. *)
Fixpoint files_from (fs : gmap string (list Row)) (n : nat) (current : Z)
    : result (list string) :=
  match n with
  | O => Ok []
  | S n' =>
      let path := file_path (day_iso current) in
      if current =? max_day then Err OverflowError
      else
        match files_from fs n' (current + 1) with
        | Ok rest =>
            Ok (match fs !! path with Some _ => path :: rest | None => rest end)
        | Err e => Err e
        end
  end.

(** [_get_files_in_range]: the body runs for every day from the start
    date to the end date, [end - start + 1] times, or not at all. *)
Definition _get_files_in_range (fs : gmap string (list Row))
    (start_dt end_dt : datetime) : result (list string) :=
  files_from fs (Z.to_nat (date_of end_dt - date_of start_dt + 1))
    (date_of start_dt).

(** [pl.concat] of the scans of the listed files. *)
Definition scan_files (fs : gmap string (list Row)) (paths : list string)
    : list Row :=
  flat_map (fun p => default [] (fs !! p)) paths.

(** The three filters. [if device_id:] is false for [None] and for the
    empty string; the time filter compares the strings. *)
Definition keep_row (user start end_ : string) (device : option string)
    (r : Row) : bool :=
  String.eqb (user_id r) user
  && match device with
     | None | Some EmptyString => true
     | Some d => String.eqb (device_id r) d
     end
  && (String.leb start (timestamp r) && String.leb (timestamp r) end_).

(** A row with the two columns the query adds. *)
Record Keyed := mk_keyed {
  row : Row;
  minute_bucket : Z;
  priority : Z
}.

(** The left join with the priority table and [fill_null(999)]. *)
Definition device_priority (device : string) : Z :=
  default 999 (DEVICE_PRIORITIES !! device).

(** The column [minute_bucket]; one string that does not parse fails the
    whole expression. *)
Fixpoint with_minute_bucket (rows : list Row) : result (list Keyed) :=
  match rows with
  | [] => Ok []
  | r :: rest =>
      match strptime (pl_replace_Z (timestamp r)) with
      | None => Err ComputeError
      | Some t =>
          match with_minute_bucket rest with
          | Ok ks =>
              Ok (mk_keyed r (truncate_1m t) (device_priority (device_id r))
                  :: ks)
          | Err e => Err e
          end
      end
  end.

(** [sort(["minute_bucket", "priority"])]. *)
Definition bucket_priority_leb (a b : Keyed) : bool :=
  (minute_bucket a <? minute_bucket b)
  || ((minute_bucket a =? minute_bucket b) && (priority a <=? priority b)).

Definition bucket_user_eqb (k1 k2 : Z * string) : bool :=
  (fst k1 =? fst k2) && String.eqb (snd k1) (snd k2).

(** The aggregation of one group of the second [group_by]. *)
Definition aggregate (g : Z * list Keyed) : list Bucket :=
  match snd g with
  | [] => []
  | k :: _ =>
      [mk_bucket (round2 (mean (map (fun x => heart_rate (row x)) (snd g))))
         (device_id (row k))
         (strftime (fst g))]
  end.

Definition timestamp_leb (a b : Bucket) : bool :=
  String.leb (b_timestamp a) (b_timestamp b).

(** [sort(...).group_by(["minute_bucket", "user_id"]).first()]: per
    minute and user, the first row of the sorted frame. *)
Definition firsts `{Sorter} (keyed : list Keyed) : list Keyed :=
  first_of_groups
    (group_by bucket_user_eqb
       (fun k => (minute_bucket k, user_id (row k)))
       (sort_by bucket_priority_leb keyed)).

(** The chain from [sort] to [sort("timestamp")]. *)
Definition aggregated `{Sorter} (keyed : list Keyed) : list Bucket :=
  let per_minute := group_by Z.eqb minute_bucket (firsts keyed) in
  sort_by timestamp_leb (flat_map aggregate per_minute).

(** [query_metrics] up to [collect()]: the rows of the files of the date
    range that pass the three filters. Without a file in the range the
    function returns at once, with nothing. *)
Definition filtered_rows (st : State) (user start end_ : string)
    (device : option string) : result (list Row) :=
  match fromisoformat (py_replace_Z start),
        fromisoformat (py_replace_Z end_) with
  | Some start_dt, Some end_dt =>
      match _get_files_in_range (files st) start_dt end_dt with
      | Err e => Err e
      | Ok [] => Ok []
      | Ok date_files =>
          Ok (List.filter (keep_row user start end_ device)
                (scan_files (files st) date_files))
      end
  | _, _ => Err ValueError
  end.

(** [query_metrics]. *)
Definition query_metrics `{Sorter} (st : State) (user start end_ : string)
    (device : option string) : result (list Bucket) :=
  match filtered_rows st user start end_ device with
  | Err e => Err e
  | Ok [] => Ok []
  | Ok filtered =>
      match with_minute_bucket filtered with
      | Err e => Err e
      | Ok keyed => Ok (aggregated keyed)
      end
  end.

(** The minute a stored row falls in, when its timestamp has the form
    the query parses. *)
Definition bucket_of (r : Row) : option Z :=
  truncate_1m <$> strptime (pl_replace_Z (timestamp r)).

End Storage.

(* ===================================================================== *)
(** ** Crash: the file writes of a flush, one at a time *)
(* ===================================================================== *)

Module Crash.
Import Frame Storage.

(** What a reader finds at a path. [write_parquet(path)] creates or
    truncates the file at [path] and then writes into it: until the call
    has finished the file is torn, neither its old content nor a
    complete Parquet file. *)
Inductive file_view :=
| Complete (rows : list Row)
| Torn.

(** The calls of [write_parquet] in a flush, in order: the path given to
    the call and the frame written. The path is [file_path] of the date,
    in both branches of the [if]. *)
Fixpoint flush_writes (fs : gmap string (list Row))
    (groups : list (string * list Row)) : list (string * list Row) :=
  match groups with
  | [] => []
  | g :: rest =>
      let path := file_path (fst g) in
      let content :=
        match fs !! path with
        | Some existing => existing ++ snd g
        | None => snd g
        end in
      (path, content) :: flush_writes (<[path := content]> fs) rest
  end.

Definition writes_of_flush (st : State) : list (string * list Row) :=
  flush_writes (files st) (group_by String.eqb date (write_buffer st)).

(** The directory when [_flush_buffer_unlocked] is interrupted inside its
    call number [k] (from 0) of [write_parquet]: the calls before it are
    complete, the file of this one is torn. *)
Definition interrupted_flush (st : State) (k : nat)
    : gmap string file_view :=
  let ws := writes_of_flush st in
  let done :=
    fold_left (fun d w => <[fst w := Complete (snd w)]> d) (firstn k ws)
      (Complete <$> files st) in
  match nth_error ws k with
  | Some w => <[fst w := Torn]> done
  | None => done
  end.

End Crash.

(* ===================================================================== *)
(** ** Spec: the notions the properties are stated with *)
(* ===================================================================== *)

Module Spec.
Import Text Calendar Iso Frame Storage.

(** An entry is malformed when a field is missing or its timestamp does
    not parse. *)
Definition malformed (r : Reading) : bool :=
  match rd_device_id r, rd_user_id r, rd_timestamp r, rd_heart_rate r with
  | Some _, Some _, Some ts, Some _ =>
      match fromisoformat (py_replace_Z ts) with
      | Some _ => false
      | None => true
      end
  | _, _, _, _ => true
  end.

(** The record of a well-formed entry: its four fields and the date of
    its timestamp; nothing for a malformed one. *)
Definition record_of (r : Reading) : list Row :=
  match rd_device_id r, rd_user_id r, rd_timestamp r, rd_heart_rate r with
  | Some d, Some u, Some ts, Some hr =>
      match fromisoformat (py_replace_Z ts) with
      | Some dt =>
          [mk_row d u ts hr (date_iso (dt_year dt) (dt_month dt) (dt_day dt))]
      | None => []
      end
  | _, _, _, _ => []
  end.

(** The state after a non-empty list of records was put on the buffer
    under the lock: extended, and flushed at once when it holds
    [BATCH_SIZE] records or more. *)
Definition buffered (records : list Row) (st : State) : State :=
  let buf := deque_extend (write_buffer st) records in
  if BATCH_SIZE <=? Z.of_nat (length buf) then
    mk_state [] (write_lock st)
      (fold_left write_group (group_by String.eqb date buf) (files st))
  else mk_state buf (write_lock st) (files st).

(** The bucket made of a single row: its heart rate, its device and
    its minute. *)
Definition bucket_of_keyed (k : Keyed) : Bucket :=
  mk_bucket (inject_Z (heart_rate (row k))) (device_id (row k))
    (strftime (minute_bucket k)).

(** The shape [YYYY-MM-DDTHH:MM:00Z] of a printed minute. *)
Definition minute_format (s : string) : Prop :=
  exists y mo d h mi,
    s = fmt_year y +:+ "-" +:+ digits 2 mo +:+ "-" +:+ digits 2 d +:+ "T"
        +:+ digits 2 h +:+ ":" +:+ digits 2 mi +:+ ":00Z"
    /\ 1 <= mo <= 12 /\ 1 <= d <= 31 /\ 0 <= h <= 23 /\ 0 <= mi <= 59.

End Spec.

(* ===================================================================== *)
(** ** Samples: the data of the examples *)
(* ===================================================================== *)

Module Samples.
Import Frame Storage.

Definition day : string := "2024-01-15".
Definition path : string := Eval cbv in file_path day.

(** Three readings of one device in the minute 10:00. *)
Definition a70 := mk_row "device_a" "u" "2024-01-15T10:00:05Z" 70 day.
Definition a72 := mk_row "device_a" "u" "2024-01-15T10:00:20Z" 72 day.
Definition a74 := mk_row "device_a" "u" "2024-01-15T10:00:40Z" 74 day.
Definition a76 := mk_row "device_a" "u" "2024-01-15T10:00:40Z" 76 day.
Definition st_three : State := init (<[path := [a70; a72; a74]]> ∅).
Definition st_two : State := init (<[path := [a70; a76]]> ∅).

(** The two devices in one minute, the lower priority stored first. *)
Definition b80 := mk_row "device_b" "u" "2024-01-15T10:00:00Z" 80 day.
Definition a75 := mk_row "device_a" "u" "2024-01-15T10:00:00Z" 75 day.
Definition st_ab : State := init (<[path := [b80; a75]]> ∅).

(** Two devices outside the priority table in one minute. *)
Definition x61 := mk_row "device_x" "u" "2024-01-15T10:00:10Z" 61 day.
Definition y62 := mk_row "device_y" "u" "2024-01-15T10:00:30Z" 62 day.
Definition st_xy_busy : State := mk_state [a70] true (<[path := [x61; y62]]> ∅).

(** A batch of 201 well-formed readings: one of user [first], then 200
    of user [u]. *)
Definition reading (user : string) (hr : Z) : Reading :=
  mk_reading (Some "device_a") (Some user) (Some "2024-01-15T10:00:00Z")
    (Some hr).
Definition first_reading : Reading := reading "first" 99.
Definition first_row : Row :=
  mk_row "device_a" "first" "2024-01-15T10:00:00Z" 99 day.
Definition batch201 : list Reading :=
  first_reading :: repeat (reading "u" 60) 200.
Definition later_rows : list Row :=
  repeat (mk_row "device_a" "u" "2024-01-15T10:00:00Z" 60 day) 200.
Definition st_later : State := mk_state [] false (<[path := later_rows]> ∅).

(** A buffer one record short of [BATCH_SIZE]. *)
Definition st_99 : State :=
  mk_state (repeat (mk_row "device_a" "u" "2024-01-15T10:00:05Z" 70 day) 99)
    false ∅.

(** A batch with two malformed entries among three. *)
Definition no_user : Reading :=
  mk_reading (Some "device_a") None (Some "2024-01-15T10:00:00Z") (Some 70).
Definition bad_time : Reading :=
  mk_reading (Some "device_a") (Some "u") (Some "invalid-timestamp") (Some 70).
Definition mixed_batch : list Reading := [no_user; reading "u" 60; bad_time].

End Samples.

(* ===================================================================== *)
(** ** Select: the stored rows a query selects *)
(* ===================================================================== *)

Module Select.
Import Text Calendar Iso Storage.

(** All characters of a string satisfy [P]. *)
Fixpoint all_chars (P : ascii -> Prop) (s : string) : Prop :=
  match s with
  | EmptyString => True
  | String c s' => P c /\ all_chars P s'
  end.

(** A stored row the query selects: it lies in the file of a day of the
    date range and passes the three filters. *)
Definition selected (st : State) (user start end_ : string)
    (device : option string) (r : Row) : Prop :=
  exists start_dt end_dt i rows,
    fromisoformat (py_replace_Z start) = Some start_dt
    /\ fromisoformat (py_replace_Z end_) = Some end_dt
    /\ date_of start_dt <= i <= date_of end_dt
    /\ files st !! file_path (day_iso i) = Some rows
    /\ In r rows
    /\ keep_row user start end_ device r = true.


End Select.

(* ===================================================================== *)
(** ** Api: core/models.py and core/api.py *)
(* ===================================================================== *)

Module Api.
Import Text Calendar Iso Frame Storage.

(** *** core/config.py, the bounds of the validator *)

Definition MIN_HEART_RATE : Z := 30.
Definition MAX_HEART_RATE : Z := 220.

(** *** core/models.py *)

(** [HeartRateMetricRequest]: the four fields, with their types. *)
Record HeartRateMetricRequest := mk_request {
  rq_device_id : string;
  rq_user_id : string;
  rq_timestamp : string;
  rq_heart_rate : Z
}.

(** The field validators; [None] stands for the [ValueError] that makes
    the request invalid. *)
Definition validate_heart_rate (v : Z) : option Z :=
  if negb ((MIN_HEART_RATE <=? v) && (v <=? MAX_HEART_RATE)) then None
  else Some v.

Definition validate_timestamp (v : string) : option string :=
  match fromisoformat (py_replace_Z v) with
  | Some _ => Some v
  | None => None
  end.

(** A request body that the model accepts. *)
Definition valid_request (m : HeartRateMetricRequest) : bool :=
  match validate_heart_rate (rq_heart_rate m),
        validate_timestamp (rq_timestamp m) with
  | Some _, Some _ => true
  | _, _ => false
  end.

(** [HeartRateBatchRequest.validate_readings]. *)
Definition validate_readings (v : list HeartRateMetricRequest)
    : option (list HeartRateMetricRequest) :=
  if (1000 <? length v)%nat then None
  else if (length v =? 0)%nat then None
  else Some v.

(** A batch body that the model accepts: every reading is validated,
    then the list. *)
Definition valid_batch (v : list HeartRateMetricRequest) : bool :=
  forallb valid_request v
  && match validate_readings v with Some _ => true | None => false end.

(** [BatchStatusResponse]. *)
Record BatchStatusResponse := mk_batch_status {
  bs_status : string;
  bs_accepted : Z;
  bs_rejected : Z;
  bs_total : Z
}.

(** [HeartRateResponse]; a data point has the three fields of a bucket. *)
Record HeartRateResponse := mk_response {
  rs_user_id : string;
  rs_data : list Bucket;
  rs_count : Z
}.

(** *** core/api.py *)

(** What a handler does with a request: it returns the body of its
    response, raises an [HTTPException] with a status code, lets an
    exception escape, or never resumes. *)
Inductive reply (A : Type) : Type :=
| Responds (body : A)
| HTTPException (status_code : Z)
| Escapes
| Hangs.
Arguments Responds {A} body.
Arguments HTTPException {A} status_code.
Arguments Escapes {A}.
Arguments Hangs {A}.

(** [ingest_heart_rate]: the status of the response it returns. *)
Definition ingest_heart_rate (metric : HeartRateMetricRequest) (st : State)
    : reply string * State :=
  match ingest_metric (rq_device_id metric) (rq_user_id metric)
          (rq_timestamp metric) (rq_heart_rate metric) st with
  | Returns _ st' => (Responds "accepted", st')
  | Raises ValueError st' => (HTTPException 400, st')
  | Raises _ st' => (HTTPException 500, st')
  | Blocks st' => (Hangs, st')
  end.

(** The dict built from a reading of a batch. *)
Definition reading_data (reading : HeartRateMetricRequest) : Reading :=
  mk_reading (Some (rq_device_id reading)) (Some (rq_user_id reading))
    (Some (rq_timestamp reading)) (Some (rq_heart_rate reading)).

(** [ingest_heart_rate_batch]. *)
Definition ingest_heart_rate_batch (batch : list HeartRateMetricRequest)
    (st : State) : reply BatchStatusResponse * State :=
  let readings_data := map reading_data batch in
  match ingest_batch readings_data st with
  | Returns (accepted, rejected) st' =>
      (Responds (mk_batch_status "accepted" accepted rejected
                   (Z.of_nat (length batch))), st')
  | Raises ValueError st' => (HTTPException 400, st')
  | Raises _ st' => (HTTPException 500, st')
  | Blocks st' => (Hangs, st')
  end.

(** The instant of an aware datetime, the fields of a naive one, as
    seconds. *)
Definition dt_seconds (dt : datetime) : Z :=
  date_of dt * 86400 + dt_hour dt * 3600 + dt_minute dt * 60 + dt_second dt
  - default 0 (dt_utcoffset dt) * 60.

(** [start_dt >= end_dt]; [None] stands for the [TypeError] of a
    comparison between a naive and an aware datetime. *)
Definition datetime_ge (a b : datetime) : option bool :=
  match dt_utcoffset a, dt_utcoffset b with
  | Some _, Some _ | None, None => Some (dt_seconds b <=? dt_seconds a)
  | _, _ => None
  end.

(** [query_heart_rate]; the store is read, not changed. *)
Definition query_heart_rate `{Sorter} (user start end_ : string)
    (device : option string) (st : State) : reply HeartRateResponse :=
  match fromisoformat (py_replace_Z start) with
  | None => HTTPException 400
  | Some start_dt =>
      match fromisoformat (py_replace_Z end_) with
      | None => HTTPException 400
      | Some end_dt =>
          match datetime_ge start_dt end_dt with
          | None => Escapes
          | Some true => HTTPException 400
          | Some false =>
              match query_metrics st user start end_ device with
              | Err _ => HTTPException 500
              | Ok [] => HTTPException 404
              | Ok data =>
                  Responds (mk_response user data (Z.of_nat (length data)))
              end
          end
      end
  end.

End Api.

(* ===================================================================== *)
(** * Properties *)
(* ===================================================================== *)

(** ** Insertion sort is a sort *)

Section InsertionSort.
Import Frame.
Context {A : Type} (leb : A -> A -> bool).

Lemma insert_sorted_perm x l : Permutation (insert_sorted leb x l) (x :: l).
Proof.
  induction l as [|y t IH]; simpl; [reflexivity|].
  destruct (leb x y); [reflexivity|].
  rewrite IH. apply perm_swap.
Qed.

Lemma isort_perm l : Permutation (isort leb l) l.
Proof.
  induction l as [|x t IH]; simpl; [reflexivity|].
  rewrite insert_sorted_perm. now constructor.
Qed.

Hypothesis leb_total : forall x y, leb x y = true \/ leb y x = true.
Hypothesis leb_trans :
  forall x y z, leb x y = true -> leb y z = true -> leb x z = true.

Lemma insert_sorted_sorted x l :
  StronglySorted (fun a b => leb a b = true) l ->
  StronglySorted (fun a b => leb a b = true) (insert_sorted leb x l).
Proof.
  induction 1 as [|y t Ht IH Hy]; simpl.
  - repeat constructor.
  - destruct (leb x y) eqn:E.
    + constructor; [now constructor|].
      constructor; [exact E|].
      eapply List.Forall_impl; [|exact Hy]. intros z Hz. eauto.
    + constructor; [exact IH|].
      eapply Permutation_Forall; [symmetry; apply insert_sorted_perm|].
      constructor; [|exact Hy].
      destruct (leb_total x y) as [Hxy|Hyx]; congruence.
Qed.

Lemma isort_sorted l : StronglySorted (fun a b => leb a b = true) (isort leb l).
Proof.
  induction l as [|x t IH]; simpl; [constructor|].
  now apply insert_sorted_sorted.
Qed.
End InsertionSort.

(** The sort used to run the examples: it keeps the stored order among
    rows that compare equal. *)
#[export] Instance stable_sorter : Frame.Sorter := {|
  Frame.sort_by := @Frame.isort;
  Frame.sort_by_perm := @isort_perm;
  Frame.sort_by_sorted := fun A leb l Ht Htr => @isort_sorted A leb Ht Htr l
|}.

(** ** Grouping *)

Section GroupByFacts.
Import Frame.
Context {K A : Type} (eqb : K -> K -> bool) (key : A -> K).
Hypothesis eqb_eq : forall k1 k2, eqb k1 k2 = true <-> k1 = k2.

Let same (k : K) (x : A) : bool := eqb k (key x).

Lemma eqb_refl_key k : eqb k k = true.
Proof. now apply eqb_eq. Qed.

Lemma group_by_snoc l x :
  group_by eqb key (l ++ [x]) = insert_group eqb key x (group_by eqb key l).
Proof. unfold group_by. now rewrite fold_left_app. Qed.

Lemma insert_group_keys x gs :
  map fst (insert_group eqb key x gs) =
  if existsb (fun k => eqb k (key x)) (map fst gs) then map fst gs
  else map fst gs ++ [key x].
Proof.
  induction gs as [|[k rows] gs IH]; simpl; [reflexivity|].
  destruct (eqb k (key x)) eqn:E; simpl; [reflexivity|].
  rewrite IH. now destruct (existsb _ _).
Qed.

Lemma insert_group_In x gs k rows :
  List.NoDup (map fst gs) ->
  In (k, rows) (insert_group eqb key x gs) ->
  (same k x = false /\ In (k, rows) gs)
  \/ (same k x = true /\ exists rows0, In (k, rows0) gs /\ rows = rows0 ++ [x])
  \/ (k = key x /\ rows = [x] /\ ~ In k (map fst gs)).
Proof.
  unfold same.
  induction gs as [|[k0 rows0] gs IH]; simpl; intros Hnd Hin.
  - destruct Hin as [Hin|[]]. injection Hin as <- <-. right; right. tauto.
  - apply List.NoDup_cons_iff in Hnd as [Hk0 Hnd].
    destruct (eqb k0 (key x)) eqn:E.
    + apply eqb_eq in E. subst k0.
      destruct Hin as [Hin|Hin].
      * injection Hin as <- <-. right; left.
        rewrite eqb_refl_key. eauto.
      * left. split; [|now right].
        destruct (eqb k (key x)) eqn:E'; [|reflexivity].
        apply eqb_eq in E'. subst k. exfalso. apply Hk0.
        change (key x) with (fst (key x, rows)). now apply in_map.
    + destruct Hin as [Hin|Hin].
      * injection Hin as <- <-. left. split; [exact E|now left].
      * destruct (IH Hnd Hin) as [[H1 H2]|[[H1 (r0 & H2 & H3)]|(H1 & H2 & H3)]].
        -- left. split; [exact H1|now right].
        -- right; left. split; [exact H1|]. exists r0. split; [now right|exact H3].
        -- right; right. repeat split; try assumption.
           intros [Hk|Hk]; [|now apply H3].
           subst k0 k. rewrite eqb_refl_key in E. discriminate.
Qed.

Lemma insert_group_NoDup x gs :
  List.NoDup (map fst gs) -> List.NoDup (map fst (insert_group eqb key x gs)).
Proof.
  intros Hnd. rewrite insert_group_keys.
  destruct (existsb _ _) eqn:E; [exact Hnd|].
  apply List.NoDup_app; [exact Hnd|repeat constructor; simpl; tauto|].
  intros k Hk [<-|[]].
  assert (existsb (fun k => eqb k (key x)) (map fst gs) = true); [|congruence].
  apply existsb_exists. exists (key x). split; [exact Hk|apply eqb_refl_key].
Qed.

(** The groups of [group_by]: distinct keys, and under each key the rows
    of that key, in input order. *)
Lemma group_by_spec l :
  List.NoDup (map fst (group_by eqb key l))
  /\ (forall k rows, In (k, rows) (group_by eqb key l) ->
        rows = List.filter (same k) l /\ rows <> [])
  /\ (forall x, In x l -> In (key x) (map fst (group_by eqb key l))).
Proof.
  induction l as [|x l IH] using rev_ind.
  - split; [constructor|]. split; [intros k rows []|intros x []].
  - destruct IH as (Hnd & Hrows & Hkeys).
    rewrite group_by_snoc. split; [now apply insert_group_NoDup|]. split.
    + intros k rows Hin. rewrite List.filter_app. simpl.
      apply insert_group_In in Hin; [|exact Hnd].
      destruct Hin as [[H1 H2]|[[H1 (r0 & H2 & H3)]|(H1 & H2 & H3)]].
      * rewrite H1, app_nil_r. now apply Hrows.
      * rewrite H1. destruct (Hrows _ _ H2) as [-> _]. split; [exact H3|].
        subst rows. now destruct (List.filter _ l).
      * subst k rows. unfold same at 2. rewrite eqb_refl_key.
        split; [|discriminate].
        replace (List.filter (same (key x)) l) with (@nil A); [reflexivity|].
        symmetry. destruct (List.filter (same (key x)) l) as [|y t] eqn:E;
          [reflexivity|].
        exfalso. apply H3. assert (Hy : In y (List.filter (same (key x)) l))
          by (rewrite E; now left).
        apply filter_In in Hy as [Hy Hs]. unfold same in Hs.
        apply eqb_eq in Hs. rewrite Hs. now apply Hkeys.
    + intros y Hy. rewrite insert_group_keys.
      apply in_app_or in Hy as [Hy|[<-|[]]].
      * destruct (existsb _ _); [now apply Hkeys|].
        apply in_or_app. left. now apply Hkeys.
      * destruct (existsb _ _) eqn:E.
        -- apply existsb_exists in E as (k & Hk & Ek).
           apply eqb_eq in Ek. now subst k.
        -- apply in_or_app. right. now left.
Qed.

(** A kept row of a filter: nothing before it passes the test. *)
Lemma filter_head (p : A -> bool) l r rest :
  List.filter p l = r :: rest ->
  exists l1 l2, l = l1 ++ r :: l2 /\ p r = true
                /\ (forall x, In x l1 -> p x = false).
Proof.
  induction l as [|x l IH]; simpl; [discriminate|].
  destruct (p x) eqn:E.
  - intros H. injection H as -> _. exists [], l. repeat split; [exact E|].
    intros ? [].
  - intros H. destruct (IH H) as (l1 & l2 & -> & Hr & Hl1).
    exists (x :: l1), l2. repeat split; [exact Hr|].
    intros y [<-|Hy]; [exact E|now apply Hl1].
Qed.

(** The first rows of the groups: one per key, each the earliest row
    of its key. *)
Lemma first_of_groups_spec l r :
  In r (first_of_groups (group_by eqb key l)) ->
  exists l1 l2, l = l1 ++ r :: l2
                /\ (forall x, In x l1 -> key x <> key r).
Proof.
  unfold first_of_groups. intros Hin.
  apply in_flat_map in Hin as ([k rows] & Hg & Hr). simpl in Hr.
  destruct rows as [|r0 rest]; [destruct Hr|]. destruct Hr as [<-|[]].
  destruct (group_by_spec l) as (_ & Hrows & _).
  destruct (Hrows _ _ Hg) as [Hf _]. symmetry in Hf.
  apply filter_head in Hf as (l1 & l2 & -> & Hk & Hl1).
  exists l1, l2. split; [reflexivity|].
  intros x Hx Heq. specialize (Hl1 x Hx). unfold same in *.
  apply eqb_eq in Hk. subst k. rewrite Heq, eqb_refl_key in Hl1. discriminate.
Qed.

Lemma first_of_groups_keys l :
  map key (first_of_groups (group_by eqb key l))
  = map fst (group_by eqb key l).
Proof.
  destruct (group_by_spec l) as (_ & Hrows & _).
  unfold first_of_groups.
  induction (group_by eqb key l) as [|[k rows] gs IH]; simpl; [reflexivity|].
  destruct (Hrows k rows (or_introl eq_refl)) as [Hf Hne].
  destruct rows as [|r rest]; [congruence|]. simpl.
  rewrite IH by (intros; apply Hrows; now right). f_equal.
  assert (Hr : In r (List.filter (same k) l)) by (rewrite <- Hf; now left).
  apply filter_In in Hr as [_ Hr]. unfold same in Hr.
  apply eqb_eq in Hr. now subst.
Qed.

Lemma first_of_groups_NoDup l :
  List.NoDup (map key (first_of_groups (group_by eqb key l))).
Proof. rewrite first_of_groups_keys. apply group_by_spec. Qed.

Lemma first_of_groups_complete l x :
  In x l -> exists r, In r (first_of_groups (group_by eqb key l))
                      /\ key r = key x.
Proof.
  intros Hx. destruct (group_by_spec l) as (_ & _ & Hkeys).
  specialize (Hkeys x Hx). rewrite <- first_of_groups_keys in Hkeys.
  apply in_map_iff in Hkeys as (r & Hr & Hin). eauto.
Qed.

(** Rows with distinct keys fall into groups of one. *)
Lemma group_by_singletons l :
  List.NoDup (map key l) ->
  group_by eqb key l = map (fun x => (key x, [x])) l.
Proof.
  induction l as [|x l IH] using rev_ind; intros Hnd; [reflexivity|].
  rewrite group_by_snoc, map_app in *. simpl in *.
  apply List.NoDup_app_remove_r in Hnd as Hnd'.
  rewrite IH by exact Hnd'.
  assert (Hx : ~ In (key x) (map key l)).
  { intros Hin. apply List.NoDup_remove_2 in Hnd. rewrite app_nil_r in Hnd.
    contradiction. }
  clear -Hx eqb_eq. induction l as [|y l IH]; simpl; [reflexivity|].
  destruct (eqb (key y) (key x)) eqn:E.
  - apply eqb_eq in E. exfalso. apply Hx. now left.
  - f_equal. apply IH. intros Hin. apply Hx. now right.
Qed.
End GroupByFacts.

(** ** Mean and rounding *)

Section Rounding.
Import Frame.

Lemma round_half_away_Z (n : Z) : round_half_away (inject_Z n) = n.
Proof.
  unfold round_half_away, Qle_bool, Qceiling, Qfloor, Qminus, Qplus, Qopp,
    inject_Z. simpl.
  destruct (0 * 1 <=? n * 1); Z.div_mod_to_equations; lia.
Qed.

(** The mean of a single value is the value, and rounding keeps it. *)
Lemma round2_mean_single (z : Z) : round2 (mean [z]) = inject_Z z.
Proof.
  unfold round2, mean. simpl fold_right. simpl length.
  change (Pos.of_nat 1) with 1%positive.
  assert (E' : round_half_away ((z + 0 # 1) * 100) = z * 100).
  { unfold round_half_away, Qle_bool, Qceiling, Qfloor, Qminus, Qplus,
      Qopp, Qmult. simpl.
    destruct (_ <=? _); Z.div_mod_to_equations; lia. }
  rewrite E'.
  rewrite <- (Qred_identity (inject_Z z)) by (simpl; apply Z.gcd_1_r).
  apply Qred_complete. unfold Qeq, inject_Z. simpl. lia.
Qed.
End Rounding.

(** ** The aggregation chain *)

Section Aggregation.
Import Text Calendar Iso Frame Storage Spec.
Context `{Sorter}.

Lemma bucket_priority_leb_total a b :
  bucket_priority_leb a b = true \/ bucket_priority_leb b a = true.
Proof.
  unfold bucket_priority_leb.
  destruct (Z.ltb_spec (minute_bucket a) (minute_bucket b)),
    (Z.ltb_spec (minute_bucket b) (minute_bucket a)),
    (Z.eqb_spec (minute_bucket a) (minute_bucket b)),
    (Z.eqb_spec (minute_bucket b) (minute_bucket a)),
    (Z.leb_spec (priority a) (priority b)),
    (Z.leb_spec (priority b) (priority a)); simpl; auto; lia.
Qed.

Lemma bucket_priority_leb_iff a b :
  bucket_priority_leb a b = true <->
  minute_bucket a < minute_bucket b
  \/ (minute_bucket a = minute_bucket b /\ priority a <= priority b).
Proof.
  unfold bucket_priority_leb.
  rewrite orb_true_iff, andb_true_iff, Z.ltb_lt, Z.eqb_eq, Z.leb_le.
  reflexivity.
Qed.

Lemma bucket_priority_leb_trans a b c :
  bucket_priority_leb a b = true -> bucket_priority_leb b c = true ->
  bucket_priority_leb a c = true.
Proof. rewrite !bucket_priority_leb_iff. lia. Qed.

Lemma bucket_user_eqb_eq k1 k2 : bucket_user_eqb k1 k2 = true <-> k1 = k2.
Proof.
  destruct k1 as [b1 u1], k2 as [b2 u2]. unfold bucket_user_eqb. simpl.
  rewrite andb_true_iff, Z.eqb_eq, String.eqb_eq.
  split; [intros [-> ->]; reflexivity|intros [= -> ->]; auto].
Qed.

Lemma timestamp_leb_total a b :
  timestamp_leb a b = true \/ timestamp_leb b a = true.
Proof. apply String.leb_total. Qed.

Lemma string_leb_trans s1 s2 s3 :
  String.leb s1 s2 = true -> String.leb s2 s3 = true ->
  String.leb s1 s3 = true.
Proof.
  intros H1 H2. apply Is_true_true.
  change (String.le s1 s3). transitivity s2; apply Is_true_true; assumption.
Qed.

Lemma timestamp_leb_trans a b c :
  timestamp_leb a b = true -> timestamp_leb b c = true ->
  timestamp_leb a c = true.
Proof. apply string_leb_trans. Qed.

Lemma StronglySorted_after {A : Type} (R : A -> A -> Prop) l1 x l2 :
  StronglySorted R (l1 ++ x :: l2) -> Forall (R x) l2.
Proof.
  induction l1 as [|y l1 IH]; simpl; intros Hs.
  - now apply StronglySorted_inv in Hs as [_ Hs].
  - apply StronglySorted_inv in Hs as [Hs _]. now apply IH.
Qed.

Lemma firsts_In keyed k : In k (firsts keyed) -> In k keyed.
Proof.
  intros Hk. apply first_of_groups_spec in Hk as (l1 & l2 & E & _);
    [|apply bucket_user_eqb_eq].
  eapply Permutation_in; [apply sort_by_perm|].
  rewrite E. apply in_or_app. right. now left.
Qed.

(** A kept row has the least priority number of its minute and user. *)
Lemma firsts_least keyed k k' :
  In k (firsts keyed) -> In k' keyed ->
  minute_bucket k' = minute_bucket k ->
  user_id (row k') = user_id (row k) ->
  priority k <= priority k'.
Proof.
  intros Hk Hk' Hb Hu.
  apply first_of_groups_spec in Hk as (l1 & l2 & E & Hl1);
    [|apply bucket_user_eqb_eq].
  pose proof (sort_by_sorted _ bucket_priority_leb keyed
                bucket_priority_leb_total bucket_priority_leb_trans) as Hs.
  rewrite E in Hs. apply StronglySorted_after in Hs.
  assert (Hin : In k' (l1 ++ k :: l2)).
  { rewrite <- E. eapply Permutation_in; [symmetry; apply sort_by_perm|].
    exact Hk'. }
  apply in_app_or in Hin as [Hin|[<-|Hin]].
  - exfalso. apply (Hl1 _ Hin). congruence.
  - lia.
  - rewrite List.Forall_forall in Hs. specialize (Hs _ Hin).
    apply bucket_priority_leb_iff in Hs. lia.
Qed.

Lemma firsts_complete keyed k :
  In k keyed ->
  exists k0, In k0 (firsts keyed)
             /\ minute_bucket k0 = minute_bucket k
             /\ user_id (row k0) = user_id (row k).
Proof.
  intros Hk.
  assert (Hin : In k (sort_by bucket_priority_leb keyed))
    by (eapply Permutation_in; [symmetry; apply sort_by_perm|exact Hk]).
  eapply first_of_groups_complete in Hin as (k0 & Hk0 & E);
    [|apply bucket_user_eqb_eq].
  exists k0. split; [exact Hk0|]. now injection E.
Qed.

(** When all rows are of one user, the kept rows have distinct minutes. *)
Lemma firsts_NoDup_minutes keyed user :
  Forall (fun k => user_id (row k) = user) keyed ->
  List.NoDup (map minute_bucket (firsts keyed)).
Proof.
  intros Hu.
  pose proof (first_of_groups_NoDup bucket_user_eqb
                (fun k => (minute_bucket k, user_id (row k)))
                bucket_user_eqb_eq
                (sort_by bucket_priority_leb keyed)) as Hnd.
  change (List.NoDup (map (fun k => (minute_bucket k, user_id (row k)))
                     (firsts keyed))) in Hnd.
  assert (Hall : Forall (fun k => user_id (row k) = user) (firsts keyed)).
  { apply List.Forall_forall. intros k Hk. rewrite List.Forall_forall in Hu.
    apply Hu. now apply firsts_In. }
  induction (firsts keyed) as [|k l IH]; simpl in *; [constructor|].
  apply List.NoDup_cons_iff in Hnd as [Hk Hnd].
  apply List.Forall_cons_iff in Hall as [Hku Hall].
  constructor; [|now apply IH].
  intros Hin. apply Hk. apply in_map_iff in Hin as (k1 & E & Hk1).
  apply in_map_iff. exists k1. split; [|exact Hk1].
  rewrite List.Forall_forall in Hall. rewrite (Hall _ Hk1). congruence.
Qed.

(** With one user, the whole chain is: keep the first rows, turn each
    into a bucket, sort by timestamp. *)
Lemma aggregated_one_user keyed user :
  Forall (fun k => user_id (row k) = user) keyed ->
  aggregated keyed = sort_by timestamp_leb (map bucket_of_keyed (firsts keyed)).
Proof.
  intros Hu. unfold aggregated. f_equal.
  rewrite (group_by_singletons Z.eqb minute_bucket Z.eqb_eq)
    by (eapply firsts_NoDup_minutes; exact Hu).
  induction (firsts keyed) as [|k l IH]; simpl; [reflexivity|].
  rewrite IH. unfold aggregate, bucket_of_keyed. simpl snd. simpl fst.
  simpl map. now rewrite round2_mean_single.
Qed.
End Aggregation.

(** ** The query, step by step *)

Section QuerySteps.
Import Text Calendar Iso Frame Storage Spec.
Context `{Sorter}.

Lemma with_minute_bucket_spec rows keyed :
  with_minute_bucket rows = Ok keyed ->
  map row keyed = rows
  /\ Forall (fun k => bucket_of (row k) = Some (minute_bucket k)
                      /\ priority k = device_priority (device_id (row k)))
       keyed.
Proof.
  revert keyed. induction rows as [|r rows IH]; simpl; intros keyed Hk.
  - injection Hk as <-. split; [reflexivity|constructor].
  - destruct (strptime (pl_replace_Z (timestamp r))) as [t|] eqn:Et;
      [|discriminate].
    destruct (with_minute_bucket rows) as [ks|] eqn:Eks; [|discriminate].
    injection Hk as <-. destruct (IH ks eq_refl) as [IH1 IH2].
    split; [simpl; now rewrite IH1|].
    constructor; [|exact IH2]. simpl. unfold bucket_of. now rewrite Et.
Qed.

Lemma filtered_rows_keep st user start end_ device filtered r :
  filtered_rows st user start end_ device = Ok filtered ->
  In r filtered -> keep_row user start end_ device r = true.
Proof.
  unfold filtered_rows. intros Hf Hr.
  destruct (fromisoformat (py_replace_Z start)); [|discriminate].
  destruct (fromisoformat (py_replace_Z end_)); [|discriminate].
  destruct (_get_files_in_range _ _ _) as [[|p ps]|]; try discriminate;
    injection Hf as <-; [destruct Hr|].
  now apply filter_In in Hr.
Qed.

Lemma filtered_rows_user st user start end_ device filtered :
  filtered_rows st user start end_ device = Ok filtered ->
  Forall (fun r => user_id r = user) filtered.
Proof.
  intros Hf. apply List.Forall_forall. intros r Hr.
  pose proof (filtered_rows_keep _ _ _ _ _ _ _ Hf Hr) as Hk.
  unfold keep_row in Hk. rewrite !andb_true_iff in Hk.
  now apply String.eqb_eq.
Qed.

(** What [query_metrics] returns, in terms of the filtered rows. *)
Lemma query_metrics_inv st user start end_ device filtered out :
  filtered_rows st user start end_ device = Ok filtered ->
  query_metrics st user start end_ device = Ok out ->
  exists keyed,
    with_minute_bucket filtered = Ok keyed
    /\ out = sort_by timestamp_leb (map bucket_of_keyed (firsts keyed)).
Proof.
  intros Hf Hq. unfold query_metrics in Hq. rewrite Hf in Hq.
  destruct filtered as [|r rows].
  - injection Hq as <-. exists []. split; [reflexivity|].
    symmetry. apply Permutation_nil. symmetry.
    etransitivity; [apply sort_by_perm|].
    unfold firsts, first_of_groups.
    assert (E : sort_by bucket_priority_leb (@nil Keyed) = []).
    { apply Permutation_nil. symmetry. apply sort_by_perm. }
    rewrite E. reflexivity.
  - destruct (with_minute_bucket (r :: rows)) as [keyed|] eqn:Ek;
      [|discriminate].
    injection Hq as <-. exists keyed. split; [reflexivity|].
    apply aggregated_one_user with (user := user).
    apply with_minute_bucket_spec in Ek as [Em _].
    apply filtered_rows_user in Hf. rewrite <- Em in Hf.
    apply List.Forall_forall. intros k Hk.
    rewrite List.Forall_forall in Hf. apply Hf. now apply in_map.
Qed.


(** Every bucket of the answer is one filtered row: its minute, its
    device and its heart rate; and that row has the least priority
    number among the filtered rows of its minute. *)
Lemma query_metrics_bucket st user start end_ device filtered out b :
  filtered_rows st user start end_ device = Ok filtered ->
  query_metrics st user start end_ device = Ok out ->
  In b out ->
  exists r t,
    In r filtered /\ bucket_of r = Some t
    /\ b = mk_bucket (inject_Z (heart_rate r)) (device_id r) (strftime t)
    /\ forall r', In r' filtered -> bucket_of r' = Some t ->
         device_priority (device_id r) <= device_priority (device_id r').
Proof.
  intros Hf Hq Hb.
  destruct (query_metrics_inv _ _ _ _ _ _ _ Hf Hq) as (keyed & Hk & ->).
  apply (Permutation_in _ (sort_by_perm _ _ _)) in Hb.
  apply in_map_iff in Hb as (k & <- & Hk1).
  destruct (with_minute_bucket_spec _ _ Hk) as [Em Hall].
  rewrite List.Forall_forall in Hall.
  pose proof (firsts_In _ _ Hk1) as Hkin.
  destruct (Hall _ Hkin) as [Hbk Hpk].
  exists (row k), (minute_bucket k).
  split; [rewrite <- Em; now apply in_map|].
  split; [exact Hbk|]. split; [reflexivity|].
  intros r' Hr' Hb'. rewrite <- Em in Hr'.
  apply in_map_iff in Hr' as (k' & <- & Hk').
  destruct (Hall _ Hk') as [Hbk' Hpk']. rewrite <- Hpk, <- Hpk'.
  apply firsts_least with (keyed := keyed); try assumption.
  - congruence.
  - apply filtered_rows_user in Hf. rewrite List.Forall_forall in Hf.
    rewrite (Hf (row k')), (Hf (row k)); [reflexivity| |];
      rewrite <- Em; now apply in_map.
Qed.

(** Every minute with a filtered row has its bucket in the answer. *)
Lemma query_metrics_covers st user start end_ device filtered out r :
  filtered_rows st user start end_ device = Ok filtered ->
  query_metrics st user start end_ device = Ok out ->
  In r filtered ->
  exists t b, bucket_of r = Some t /\ In b out /\ b_timestamp b = strftime t.
Proof.
  intros Hf Hq Hr.
  destruct (query_metrics_inv _ _ _ _ _ _ _ Hf Hq) as (keyed & Hk & ->).
  destruct (with_minute_bucket_spec _ _ Hk) as [Em Hall].
  rewrite List.Forall_forall in Hall.
  rewrite <- Em in Hr. apply in_map_iff in Hr as (k & <- & Hkin).
  destruct (Hall _ Hkin) as [Hbk _].
  destruct (firsts_complete _ _ Hkin) as (k0 & Hk0 & Eb & _).
  exists (minute_bucket k), (bucket_of_keyed k0).
  split; [exact Hbk|]. split; [|simpl; now rewrite Eb].
  apply (Permutation_in _ (Permutation_sym (sort_by_perm _ _ _))).
  now apply in_map.
Qed.
End QuerySteps.

(** ** Printing numbers *)

Section TextFacts.
Import Text.

Lemma length_append (a b : string) :
  String.length (a +:+ b) = (String.length a + String.length b)%nat.
Proof. induction a as [|c a IH]; simpl; [reflexivity|now rewrite IH]. Qed.

(** Two concatenations with prefixes of one length split alike. *)
Lemma append_inj_prefix (a1 a2 b1 b2 : string) :
  String.length a1 = String.length a2 ->
  a1 +:+ b1 = a2 +:+ b2 -> a1 = a2 /\ b1 = b2.
Proof.
  revert a2. induction a1 as [|c a1 IH]; intros [|c2 a2]; simpl;
    try discriminate; intros Hl E.
  - now split.
  - injection Hl as Hl. injection E as -> E.
    destruct (IH _ Hl E) as [-> ->]. now split.
Qed.

Lemma append_inj_suffix (a1 a2 b1 b2 : string) :
  String.length b1 = String.length b2 ->
  a1 +:+ b1 = a2 +:+ b2 -> a1 = a2 /\ b1 = b2.
Proof.
  intros Hl E. apply append_inj_prefix; [|exact E].
  apply (f_equal String.length) in E. rewrite !length_append in E. lia.
Qed.

Lemma digits_length k n : String.length (digits k n) = k.
Proof.
  revert n. induction k as [|k IH]; intros n; simpl; [reflexivity|].
  rewrite length_append, IH. simpl. lia.
Qed.

Lemma digit_inj a b :
  0 <= a <= 9 -> 0 <= b <= 9 -> digit a = digit b -> a = b.
Proof.
  unfold digit. intros Ha Hb E.
  apply (f_equal nat_of_ascii) in E.
  rewrite !nat_ascii_embedding in E by lia. lia.
Qed.

Lemma digit_val_digit a : 0 <= a <= 9 -> digit_val (digit a) = Some a.
Proof.
  unfold digit_val, digit. intros Ha.
  rewrite nat_ascii_embedding by lia.
  destruct (Z.leb_spec 48 (Z.of_nat (48 + Z.to_nat a)));
    destruct (Z.leb_spec (Z.of_nat (48 + Z.to_nat a)) 57); simpl;
    try lia. f_equal. lia.
Qed.

(** A digit is neither of the two signs. *)
Lemma digit_not_sign a c :
  0 <= a <= 9 -> digit_val c = None -> digit a <> c.
Proof. intros Ha Hc <-. rewrite digit_val_digit in Hc by exact Ha. discriminate. Qed.

Lemma digits_inj k a b :
  0 <= a < 10 ^ Z.of_nat k -> 0 <= b < 10 ^ Z.of_nat k ->
  digits k a = digits k b -> a = b.
Proof.
  revert a b. induction k as [|k IH]; intros a b Ha Hb E.
  - simpl in Ha, Hb. lia.
  - rewrite Nat2Z.inj_succ, Z.pow_succ_r in Ha, Hb by lia.
    simpl in E. apply append_inj_suffix in E as [E1 E2]; [|reflexivity].
    injection E2 as E2.
    apply digit_inj in E2; [|Z.div_mod_to_equations; lia ..].
    apply IH in E1; [|Z.div_mod_to_equations; lia ..].
    Z.div_mod_to_equations; lia.
Qed.

Lemma ndigits_fuel_bound fuel n :
  0 <= n < 2 ^ Z.of_nat (S fuel) ->
  n < 10 ^ Z.of_nat (ndigits_fuel fuel n).
Proof.
  revert n. induction fuel as [|fuel IH]; intros n Hn.
  - simpl in *. lia.
  - cbn [ndigits_fuel]. destruct (Z.ltb_spec n 10) as [Hlt|Hge].
    + simpl. lia.
    + rewrite Nat2Z.inj_succ, Z.pow_succ_r by lia.
      assert (Hd : n / 10 < 10 ^ Z.of_nat (ndigits_fuel fuel (n / 10))).
      { apply IH. rewrite (Nat2Z.inj_succ (S fuel)), Z.pow_succ_r in Hn by lia.
        Z.div_mod_to_equations; lia. }
      Z.div_mod_to_equations; lia.
Qed.

Lemma ndigits_bound n : 0 <= n -> n < 10 ^ Z.of_nat (ndigits n).
Proof.
  intros Hn. unfold ndigits. apply ndigits_fuel_bound.
  destruct (Z.eq_dec n 0) as [->|Hz]; [simpl; lia|].
  rewrite Nat2Z.inj_succ, Z2Nat.id by apply Z.log2_nonneg.
  split; [exact Hn|]. apply Z.log2_spec. lia.
Qed.
End TextFacts.

(** ** Dates and instants *)

Section CalendarFacts.
Import Text Calendar Iso Spec.

Ltac split_cmp :=
  repeat match goal with
  | |- context [ ?a <? ?b ] => destruct (Z.ltb_spec a b)
  | |- context [ ?a <=? ?b ] => destruct (Z.leb_spec a b)
  | H : context [ ?a <? ?b ] |- _ => destruct (Z.ltb_spec a b)
  | H : context [ ?a <=? ?b ] |- _ => destruct (Z.leb_spec a b)
  end.

Lemma civil_from_days_range z y m d :
  civil_from_days z = (y, m, d) -> 1 <= m <= 12 /\ 1 <= d <= 31.
Proof.
  unfold civil_from_days. intros E. injection E as Ey Em Ed.
  split_cmp; Z.div_mod_to_equations; lia.
Qed.

(** The day number of the civil date of a day is that day. *)
Lemma days_from_civil_from_days z y m d :
  civil_from_days z = (y, m, d) -> days_from_civil y m d = z.
Proof.
  unfold civil_from_days, days_from_civil. intros E.
  injection E as Ey Em Ed. subst y m d.
  split_cmp; Z.div_mod_to_equations; lia.
Qed.

Lemma civil_from_days_inj z1 z2 :
  civil_from_days z1 = civil_from_days z2 -> z1 = z2.
Proof.
  destruct (civil_from_days z1) as [[y m] d] eqn:E1. intros E2.
  symmetry in E2. apply days_from_civil_from_days in E1, E2. congruence.
Qed.

Lemma fmt_year_bound n :
  0 <= n -> n < 10 ^ Z.of_nat (Nat.max 4 (ndigits n)).
Proof.
  intros Hn. eapply Z.lt_le_trans; [now apply ndigits_bound|].
  apply Z.pow_le_mono_r; lia.
Qed.

Lemma signed_year_inj a b :
  0 <= a -> 0 <= b ->
  digits (Nat.max 4 (ndigits a)) a = digits (Nat.max 4 (ndigits b)) b ->
  a = b.
Proof.
  intros Ha Hb E.
  assert (Hk : Nat.max 4 (ndigits a) = Nat.max 4 (ndigits b)).
  { apply (f_equal String.length) in E. now rewrite !digits_length in E. }
  pose proof (fmt_year_bound a Ha) as Ba.
  pose proof (fmt_year_bound b Hb) as Bb.
  rewrite Hk in E, Ba. eapply digits_inj; [| |exact E]; lia.
Qed.

Lemma digits_cons k n :
  digits (S k) n <> EmptyString
  /\ forall c s, digits (S k) n = String c s ->
       exists m, 0 <= m <= 9 /\ c = digit m.
Proof.
  revert n. induction k as [|k IH]; intros n.
  - simpl. split; [discriminate|]. intros c s [= <- _].
    exists (n mod 10). split; [Z.div_mod_to_equations; lia|reflexivity].
  - destruct (IH (n / 10)) as [Hne Hc].
    change (digits (S (S k)) n)
      with (digits (S k) (n / 10) +:+ String (digit (n mod 10)) EmptyString).
    destruct (digits (S k) (n / 10)) as [|c0 s0]; [congruence|].
    simpl. split; [discriminate|]. intros c s [= <- _]. eauto.
Qed.

Lemma digits_not_sign k n c s :
  digit_val c = None -> digits (S k) n <> String c s.
Proof.
  intros Hc E. destruct (digits_cons k n) as [_ Hd].
  destruct (Hd _ _ E) as (m & Hm & ->).
  rewrite digit_val_digit in Hc by exact Hm. discriminate.
Qed.

Lemma fmt_year_inj y1 y2 : fmt_year y1 = fmt_year y2 -> y1 = y2.
Proof.
  unfold fmt_year.
  destruct (Z.leb_spec 0 y1), (Z.leb_spec y1 9999), (Z.leb_spec 0 y2),
    (Z.leb_spec y2 9999), (Z.ltb_spec y1 0), (Z.ltb_spec y2 0);
    cbn [andb String.append]; try lia; intros E;
    try (exfalso; eapply digits_not_sign; [|exact E]; reflexivity);
    try (exfalso; eapply digits_not_sign; [|symmetry; exact E]; reflexivity);
    try discriminate.
  - apply digits_inj in E; [exact E|simpl; lia ..].
  - injection E as E. apply signed_year_inj in E; lia.
  - injection E as E. apply signed_year_inj in E; lia.
Qed.

Lemma string_cons_inj c1 c2 (s1 s2 : string) :
  String c1 s1 = String c2 s2 -> s1 = s2.
Proof. now intros [= _ ->]. Qed.

Lemma digits2_inj a b s1 s2 :
  0 <= a < 100 -> 0 <= b < 100 ->
  digits 2 a +:+ s1 = digits 2 b +:+ s2 -> a = b /\ s1 = s2.
Proof.
  intros Ha Hb E.
  apply append_inj_prefix in E as [E ->]; [|now rewrite !digits_length].
  apply digits_inj in E; simpl; auto; lia.
Qed.

(** Distinct instants print differently. *)
Lemma strftime_inj t1 t2 : strftime t1 = strftime t2 -> t1 = t2.
Proof.
  unfold strftime.
  destruct (civil_from_days (t1 / 86400)) as [[y1 m1] d1] eqn:E1.
  destruct (civil_from_days (t2 / 86400)) as [[y2 m2] d2] eqn:E2.
  intros E.
  pose proof (civil_from_days_range _ _ _ _ E1) as R1.
  pose proof (civil_from_days_range _ _ _ _ E2) as R2.
  apply append_inj_suffix in E as [Ey E];
    [|rewrite !length_append, !digits_length; reflexivity].
  apply fmt_year_inj in Ey. cbn [String.append] in E.
  apply string_cons_inj in E.
  apply digits2_inj in E as [Em E]; [|lia ..].
  apply string_cons_inj in E.
  apply digits2_inj in E as [Ed E]; [|lia ..].
  apply string_cons_inj in E.
  apply digits2_inj in E as [Eh E]; [|Z.div_mod_to_equations; lia ..].
  apply string_cons_inj in E.
  apply digits2_inj in E as [Emi E]; [|Z.div_mod_to_equations; lia ..].
  apply string_cons_inj in E.
  apply digits2_inj in E as [Es _]; [|Z.div_mod_to_equations; lia ..].
  assert (Ed' : t1 / 86400 = t2 / 86400).
  { apply civil_from_days_inj. congruence. }
  Z.div_mod_to_equations; lia.
Qed.

Lemma strftime_truncate_1m t : minute_format (strftime (truncate_1m t)).
Proof.
  unfold strftime, minute_format, truncate_1m.
  set (t' := t - t mod 60).
  destruct (civil_from_days (t' / 86400)) as [[y m] d] eqn:E.
  apply civil_from_days_range in E.
  exists y, m, d, (t' mod 86400 / 3600), (t' mod 86400 mod 3600 / 60).
  assert (Hs : t' mod 86400 mod 60 = 0)
    by (subst t'; Z.div_mod_to_equations; lia).
  rewrite Hs. split; [reflexivity|].
  subst t'. repeat split; try tauto; Z.div_mod_to_equations; lia.
Qed.

Lemma truncate_1m_aligned t : truncate_1m t mod 60 = 0.
Proof. unfold truncate_1m. Z.div_mod_to_equations; lia. Qed.
End CalendarFacts.

(* ===================================================================== *)
(** * The write path *)
(* ===================================================================== *)

Import Text Calendar Iso Frame Storage Crash Samples Spec.

Lemma to_record_malformed r :
  to_record r = match record_of r with
                | row :: _ => Ok row
                | [] => match rd_timestamp r with
                        | None => Err KeyError
                        | Some ts =>
                            match fromisoformat (py_replace_Z ts) with
                            | None => Err ValueError
                            | Some _ => Err KeyError
                            end
                        end
                end.
Proof.
  unfold to_record, record_of.
  destruct (rd_timestamp r) as [ts|];
    [|destruct (rd_device_id r), (rd_user_id r); reflexivity].
  destruct (fromisoformat (py_replace_Z ts));
    destruct (rd_device_id r), (rd_user_id r), (rd_heart_rate r); reflexivity.
Qed.

Lemma record_of_malformed r :
  record_of r = [] <-> malformed r = true.
Proof.
  unfold record_of, malformed.
  destruct (rd_device_id r), (rd_user_id r), (rd_timestamp r) as [ts|],
    (rd_heart_rate r); try tauto.
  destruct (fromisoformat (py_replace_Z ts)); split; congruence.
Qed.

(** The loop of [ingest_batch] never leaves early: it counts the
    malformed entries and collects the records of the others, in order. *)
Lemma scan_batch_spec readings accepted rejected records :
  scan_batch readings accepted rejected records =
  Ok (accepted + Z.of_nat (length (List.filter (fun r => negb (malformed r)) readings)),
      rejected + Z.of_nat (length (List.filter malformed readings)),
      records ++ flat_map record_of readings).
Proof.
  revert accepted rejected records.
  induction readings as [|r rest IH]; intros accepted rejected records.
  - simpl. now rewrite !Z.add_0_r, app_nil_r.
  - cbn [scan_batch List.filter flat_map]. rewrite to_record_malformed.
    destruct (record_of r) as [|row [|row' more]] eqn:Er.
    + apply record_of_malformed in Er as Em. rewrite Em. cbn [negb].
      assert (E : scan_batch rest accepted (rejected + 1) records =
                  Ok (accepted + Z.of_nat (length (List.filter (fun r => negb (malformed r)) rest)),
                      rejected + Z.of_nat (length (List.filter malformed (r :: rest))),
                      records ++ flat_map record_of rest)).
      { rewrite IH. cbn [List.filter]. rewrite Em. cbn [length].
        do 3 f_equal. lia. }
      cbn [List.filter] in E. rewrite Em in E. cbn [app].
      destruct (rd_timestamp r) as [ts|]; [|exact E].
      destruct (fromisoformat (py_replace_Z ts)); exact E.
    + assert (Em : malformed r = false).
      { destruct (malformed r) eqn:Em; [|reflexivity].
        apply record_of_malformed in Em. congruence. }
      rewrite Em. cbn [negb length]. rewrite IH. cbn [app].
      rewrite <- app_assoc. cbn [app]. do 3 f_equal. lia.
    + exfalso. unfold record_of in Er.
      destruct (rd_device_id r), (rd_user_id r), (rd_timestamp r) as [ts|],
        (rd_heart_rate r); try discriminate.
      destruct (fromisoformat (py_replace_Z ts)); discriminate.
Qed.

(** The two counts add up to the size of the batch. *)
Lemma malformed_counts readings :
  Z.of_nat (length (List.filter (fun r => negb (malformed r)) readings))
  + Z.of_nat (length (List.filter malformed readings))
  = Z.of_nat (length readings).
Proof.
  induction readings as [|r rest IH]; simpl; [reflexivity|].
  destruct (malformed r); simpl; lia.
Qed.

(** What [ingest_batch] does when the lock is free. *)
Lemma ingest_batch_free st readings :
  write_lock st = false ->
  ingest_batch readings st =
  Returns (Z.of_nat (length (List.filter (fun r => negb (malformed r)) readings)),
           Z.of_nat (length (List.filter malformed readings)))
    (match flat_map record_of readings with
     | [] => st
     | records => buffered records st
     end).
Proof.
  intros Hl. unfold ingest_batch. rewrite scan_batch_spec. cbn [app].
  rewrite !Z.add_0_l.
  destruct (flat_map record_of readings) as [|row records] eqn:E;
    [reflexivity|].
  unfold buffered. destruct st as [buf lock fs]. simpl in Hl. subst lock.
  unfold mbind, M_bind, bind, with_lock, modify, gets, set_buffer, set_lock,
    _flush_buffer_unlocked, ret. cbn [write_lock write_buffer files].
  destruct (BATCH_SIZE <=? _) eqn:Eb; [|reflexivity].
  destruct (deque_extend buf (row :: records)) as [|x l] eqn:Ed;
    [|reflexivity].
  simpl in Eb. discriminate.
Qed.

(** [ingest_batch] never raises. *)
Lemma ingest_batch_no_raise st readings e st' :
  ingest_batch readings st <> Raises e st'.
Proof.
  unfold ingest_batch. rewrite scan_batch_spec. cbn [app].
  destruct (flat_map record_of readings) as [|row records]; [discriminate|].
  unfold mbind, M_bind, bind, with_lock, modify, gets, ret.
  destruct (write_lock st); [discriminate|].
  cbn. destruct (BATCH_SIZE <=? _); [|discriminate].
  unfold _flush_buffer_unlocked. cbn.
  destruct (fold_left deque_append _ _); discriminate.
Qed.

(** ** The bounded deque *)

Lemma deque_append_length buf r :
  (length buf <= 200)%nat ->
  length (deque_append buf r) = Nat.min (S (length buf)) 200.
Proof.
  unfold deque_append, maxlen, BATCH_SIZE. intros Hl.
  destruct (Z.leb_spec (100 * 2) (Z.of_nat (length buf))).
  - rewrite length_app. destruct buf; simpl in *; lia.
  - rewrite length_app. simpl. lia.
Qed.

(** The deque never holds more than [maxlen] records: of a longer
    sequence of appends only the last [maxlen] stay. *)
Lemma deque_extend_length rs buf :
  (length buf <= 200)%nat ->
  length (deque_extend buf rs) = Nat.min (length buf + length rs) 200.
Proof.
  unfold deque_extend. revert buf.
  induction rs as [|r rs IH]; intros buf Hl; simpl.
  - lia.
  - rewrite IH by (rewrite deque_append_length; lia).
    rewrite deque_append_length by exact Hl. lia.
Qed.

(** Below the capacity nothing is dropped. *)
Lemma deque_extend_app rs buf :
  (length buf + length rs <= 200)%nat -> deque_extend buf rs = buf ++ rs.
Proof.
  unfold deque_extend. revert buf.
  induction rs as [|r rs IH]; intros buf Hl; simpl.
  - now rewrite app_nil_r.
  - simpl in Hl.
    assert (E : deque_append buf r = buf ++ [r]).
    { unfold deque_append, maxlen, BATCH_SIZE.
      destruct (Z.leb_spec (100 * 2) (Z.of_nat (length buf))); [lia|reflexivity]. }
    rewrite E, IH by (rewrite length_app; simpl; lia).
    now rewrite <- app_assoc.
Qed.

(** ** The lock *)

(** From a buffer one short of [BATCH_SIZE], [ingest_metric] appends,
    calls [_flush_buffer] with the lock held, and waits on that lock for
    ever: nothing is written, and the lock stays held, so that every
    later flush waits too. *)
Lemma ingest_metric_blocks st device user ts hr dt :
  fromisoformat (py_replace_Z ts) = Some dt ->
  write_lock st = false ->
  length (write_buffer st) = 99%nat ->
  exists st',
    ingest_metric device user ts hr st = Blocks st'
    /\ write_lock st' = true
    /\ length (write_buffer st') = 100%nat
    /\ files st' = files st
    /\ flush st' = Blocks st'.
Proof.
  intros Hp Hl Hn. unfold ingest_metric. rewrite Hp.
  destruct st as [buf lock fs]. simpl in Hl, Hn. subst lock.
  unfold mbind, M_bind, bind, with_lock, modify, gets, set_buffer, set_lock.
  cbn [write_lock write_buffer files].
  assert (Hlen : length (deque_append buf
             (mk_row device user ts hr
                (date_iso (dt_year dt) (dt_month dt) (dt_day dt)))) = 100%nat)
    by (rewrite deque_append_length; lia).
  rewrite Hlen. change (BATCH_SIZE <=? Z.of_nat 100) with true.
  cbn iota. unfold _flush_buffer, with_lock. cbn [write_lock].
  eexists. split; [reflexivity|]. cbn [write_lock write_buffer files].
  repeat split; try reflexivity. exact Hlen.
Qed.

(** The hundredth single reading: the call never returns, the hundred
    records stay in the buffer, and a flush from then on waits too. *)
Example hundredth_ingest_metric_blocks :
  exists st',
    ingest_metric "device_a" "u" "2024-01-15T10:00:00Z" 70 st_99 = Blocks st'
    /\ write_lock st' = true
    /\ length (write_buffer st') = 100%nat
    /\ files st' = files st_99
    /\ flush st' = Blocks st'.
Proof.
  destruct (fromisoformat (py_replace_Z "2024-01-15T10:00:00Z")) as [dt|] eqn:E;
    [|discriminate].
  apply (ingest_metric_blocks st_99 _ _ _ _ dt E); reflexivity.
Qed.

(** ** What a flush stores *)

Lemma file_path_inj d1 d2 : file_path d1 = file_path d2 -> d1 = d2.
Proof.
  unfold file_path. intros E.
  apply append_inj_prefix in E as [_ E]; [|reflexivity].
  apply append_inj_prefix in E as [_ E]; [|reflexivity].
  apply append_inj_prefix in E as [_ E]; [|reflexivity].
  apply append_inj_prefix in E as [_ E]; [|reflexivity].
  now apply append_inj_suffix in E as [E _].
Qed.

Lemma write_groups_lookup groups fs d :
  List.NoDup (map fst groups) ->
  fold_left write_group groups fs !! file_path d =
  match List.filter (fun g => String.eqb d (fst g)) groups with
  | g :: _ => Some (default [] (fs !! file_path d) ++ snd g)
  | [] => fs !! file_path d
  end.
Proof.
  revert fs. induction groups as [|g rest IH]; intros fs Hnd; [reflexivity|].
  apply List.NoDup_cons_iff in Hnd as [Hg Hnd].
  cbn [fold_left List.filter]. rewrite IH by exact Hnd.
  destruct (String.eqb_spec d (fst g)) as [->|Hne].
  - replace (List.filter (fun g0 => String.eqb (fst g) (fst g0)) rest)
      with (@nil (string * list Row)).
    + unfold write_group.
      destruct (fs !! file_path (fst g)); now rewrite lookup_insert_eq.
    + symmetry. destruct (List.filter _ rest) as [|g' l] eqn:E; [reflexivity|].
      exfalso. apply Hg.
      assert (Hin : In g' (List.filter (fun g0 => String.eqb (fst g) (fst g0)) rest))
        by (rewrite E; now left).
      apply filter_In in Hin as [Hin Heq]. apply String.eqb_eq in Heq.
      rewrite Heq. now apply in_map.
  - assert (E : write_group fs g !! file_path d = fs !! file_path d).
    { unfold write_group.
      destruct (fs !! file_path (fst g));
        apply lookup_insert_ne; intros Hp; apply file_path_inj in Hp;
        congruence. }
    now rewrite E.
Qed.

(** X4. A flush with the lock free empties the buffer and appends, to
    the file of every date, the buffered records of that date in buffer
    order: each record is stored once, after the rows already there. *)
Lemma flush_stores st :
  write_lock st = false ->
  exists st',
    flush st = Returns tt st'
    /\ write_buffer st' = [] /\ write_lock st' = false
    /\ forall d,
         files st' !! file_path d =
         match List.filter (fun r => String.eqb d (date r)) (write_buffer st) with
         | [] => files st !! file_path d
         | rs => Some (default [] (files st !! file_path d) ++ rs)
         end.
Proof.
  intros Hl. destruct st as [buf lock fs]. simpl in Hl. subst lock.
  unfold flush, _flush_buffer, with_lock, _flush_buffer_unlocked.
  cbn [write_lock write_buffer files set_lock].
  destruct buf as [|r0 buf0] eqn:Eb.
  - eexists. split; [reflexivity|]. repeat split.
  - rewrite <- Eb. eexists. split; [reflexivity|].
    cbn [write_lock write_buffer files set_lock]. repeat split. intros d.
    destruct (group_by_spec String.eqb date String.eqb_eq buf)
      as (Hnd & Hrows & Hkeys).
    rewrite write_groups_lookup by exact Hnd.
    destruct (List.filter (fun g => String.eqb d (fst g))
                (group_by String.eqb date buf)) as [|g l] eqn:Eg.
    + replace (List.filter (fun r => String.eqb d (date r)) buf)
        with (@nil Row); [reflexivity|].
      symmetry. destruct (List.filter _ buf) as [|r l] eqn:Er; [reflexivity|].
      exfalso.
      assert (Hr : In r (List.filter (fun r => String.eqb d (date r)) buf))
        by (rewrite Er; now left).
      apply filter_In in Hr as [Hr Hd]. apply String.eqb_eq in Hd. subst d.
      apply Hkeys in Hr. apply in_map_iff in Hr as (g & Hg1 & Hg2).
      assert (Hin : In g (List.filter (fun g => String.eqb (date r) (fst g))
                            (group_by String.eqb date buf))).
      { apply filter_In. split; [exact Hg2|]. now apply String.eqb_eq. }
      rewrite Eg in Hin. destruct Hin.
    + assert (Hg : In g (List.filter (fun g => String.eqb d (fst g))
                           (group_by String.eqb date buf)))
        by (rewrite Eg; now left).
      apply filter_In in Hg as [Hg Hd]. apply String.eqb_eq in Hd.
      destruct g as [k rows]. simpl in Hd. subst k.
      destruct (Hrows _ _ Hg) as [-> Hne]. cbn [snd].
      destruct (List.filter (fun x => String.eqb d (date x)) buf);
        [congruence|reflexivity].
Qed.

(** ** The writes of a flush *)

(** Without interruption the writes give the files the flush leaves. *)
Lemma flush_writes_apply groups fs :
  fold_left write_group groups fs =
  fold_left (fun d w => <[fst w := snd w]> d) (flush_writes fs groups) fs.
Proof.
  revert fs. induction groups as [|g rest IH]; intros fs; [reflexivity|].
  cbn [fold_left flush_writes fst snd]. rewrite <- IH. f_equal.
  unfold write_group. now destruct (fs !! file_path (fst g)).
Qed.

(** Every write goes to the path of a partition itself. *)
Lemma flush_writes_in_place groups fs w :
  In w (flush_writes fs groups) -> exists g, In g groups /\ fst w = file_path (fst g).
Proof.
  revert fs. induction groups as [|g rest IH]; intros fs; simpl; [tauto|].
  intros [<-|Hw].
  - exists g. split; [now left|reflexivity].
  - destruct (IH _ Hw) as (g' & Hg' & E). exists g'. split; [now right|exact E].
Qed.

(* ===================================================================== *)
(** * Claims on the write path *)
(* ===================================================================== *)

Lemma st_later_without_first p rows :
  files st_later !! p = Some rows -> ~ In first_row rows.
Proof.
  unfold st_later. cbn [files]. intros Hp Hin.
  destruct (decide (p = path)) as [->|Hne].
  - rewrite lookup_insert_eq in Hp.
    assert (E : rows = later_rows) by congruence. subst rows.
    unfold later_rows in Hin. apply repeat_spec in Hin. discriminate.
  - rewrite lookup_insert_ne, lookup_empty in Hp by congruence. discriminate.
Qed.

(** C3, refuted by the code. A reading that entered the write buffer
    should reach its partition exactly once. A batch of 201 well-formed
    readings on an empty buffer is reported as 201 accepted, but the
    deque of at most 200 records drops the oldest one on [extend]: after
    the flush that follows, the partition holds the 200 later readings,
    the buffer is empty, and the first reading is in no file. *)
Theorem buffered_reading_lost :
  to_record first_reading = Ok first_row
  /\ ingest_batch batch201 (init ∅) = Returns (201, 0) st_later
  /\ forall st', ingest_batch batch201 (init ∅) = Returns (201, 0) st' ->
       write_buffer st' = []
       /\ forall p rows, files st' !! p = Some rows -> ~ In first_row rows.
Proof.
  split; [reflexivity|]. split; [vm_compute; reflexivity|].
  intros st' E.
  assert (E0 : ingest_batch batch201 (init ∅) = Returns (201, 0) st_later)
    by (vm_compute; reflexivity).
  assert (E' : st' = st_later) by congruence.
  subst st'. split; [reflexivity|]. apply st_later_without_first.
Qed.

(** C4, refuted by the code. A flush should write the combined content
    under a new identity and publish it by a rename, so that an
    interrupted flush leaves the old partition file as it was. The flush
    of one record for a date whose file holds one row makes a single
    write, to the path of that file; interrupted inside it, the file is
    torn and its old row is gone. *)
Theorem flush_overwrites_in_place :
  let st := mk_state [a75] false (<[path := [b80]]> ∅) in
  files st !! path = Some [b80]
  /\ writes_of_flush st = [(path, [b80; a75])]
  /\ interrupted_flush st 0 !! path = Some Torn
  /\ interrupted_flush st 0 !! path <> Some (Complete [b80]).
Proof.
  cbv zeta. split; [vm_compute; reflexivity|].
  split; [vm_compute; reflexivity|]. split; [vm_compute; reflexivity|].
  vm_compute. discriminate.
Qed.

(** C5, refuted by the code. The counts of [ingest_batch] add up to the
    size of the batch, and every accepted reading should be in its
    partition and answer a matching query after a forced flush. For the
    batch of 201 readings the counts are 201 and 0, yet after [flush]
    the first reading, of user [first], is in no file, and the query for
    that user over the whole day returns nothing. *)
Theorem accepted_reading_not_queryable :
  malformed first_reading = false
  /\ 201 + 0 = Z.of_nat (length batch201)
  /\ exists st1 st2,
       ingest_batch batch201 (init ∅) = Returns (201, 0) st1
       /\ flush st1 = Returns tt st2
       /\ (forall p rows, files st2 !! p = Some rows -> ~ In first_row rows)
       /\ forall S : Sorter,
            query_metrics st2 "first" "2024-01-15T00:00:00Z"
              "2024-01-15T23:59:59Z" None = Ok [].
Proof.
  split; [reflexivity|]. split; [reflexivity|].
  exists st_later, st_later.
  split; [vm_compute; reflexivity|]. split; [vm_compute; reflexivity|].
  split; [apply st_later_without_first|].
  intros S. unfold query_metrics.
  assert (E : filtered_rows st_later "first" "2024-01-15T00:00:00Z"
                "2024-01-15T23:59:59Z" None = Ok [])
    by (vm_compute; reflexivity).
  now rewrite E.
Qed.

(** C6, refuted by the code. In a batch with malformed entries
    [ingest_batch] should count each malformed entry as rejected, raise
    nothing, and still accept and buffer every well-formed entry. The
    counting and the absence of an exception hold; the buffering does
    not: a batch of one malformed entry and 201 well-formed ones returns
    201 accepted and 1 rejected, and the first well-formed entry, though
    counted as accepted, is in neither the buffer nor a file when the
    call returns. *)
Theorem malformed_batch_drops_accepted :
  malformed no_user = true
  /\ malformed first_reading = false
  /\ In first_reading (no_user :: batch201)
  /\ to_record first_reading = Ok first_row
  /\ ingest_batch (no_user :: batch201) (init ∅) = Returns (201, 1) st_later
  /\ ~ In first_row (write_buffer st_later)
  /\ forall p rows, files st_later !! p = Some rows -> ~ In first_row rows.
Proof.
  split; [reflexivity|]. split; [reflexivity|].
  split; [right; now left|]. split; [reflexivity|].
  split; [vm_compute; reflexivity|]. split; [intros []|].
  apply st_later_without_first.
Qed.

(** C10. When the timestamp given to [ingest_metric] does not parse
    (after [Z] is replaced by [+00:00]), the call raises [ValueError]
    before it takes the lock: buffer, lock and files are as before. *)
Theorem ingest_metric_unparseable st device user ts hr :
  fromisoformat (py_replace_Z ts) = None ->
  ingest_metric device user ts hr st = Raises ValueError st.
Proof. intros Hp. unfold ingest_metric. now rewrite Hp. Qed.

Lemma ingest_metric_unparseable_witness :
  fromisoformat (py_replace_Z "invalid-timestamp") = None
  /\ ingest_metric "device_a" "u" "invalid-timestamp" 70 st_xy_busy
     = Raises ValueError st_xy_busy.
Proof.
  split; [reflexivity|].
  apply (ingest_metric_unparseable st_xy_busy). reflexivity.
Defined.

(* ===================================================================== *)
(** * The read path *)
(* ===================================================================== *)

(** ** The files a query reads *)


Lemma files_from_days fs n current paths p :
  files_from fs n current = Ok paths -> In p paths ->
  exists i, current <= i < current + Z.of_nat n /\ p = file_path (day_iso i).
Proof.
  revert current paths. induction n as [|n IH]; intros current paths.
  - simpl. intros [= <-] [].
  - cbn [files_from]. destruct (current =? max_day); [discriminate|].
    destruct (files_from fs n (current + 1)) as [rest|] eqn:E; [|discriminate].
    intros [= <-] Hp.
    assert (Hrest : In p rest ->
              exists i, current <= i < current + Z.of_nat (S n)
                        /\ p = file_path (day_iso i)).
    { intros Hin. destruct (IH _ _ E Hin) as (i & Hi & ->).
      exists i. split; [lia|reflexivity]. }
    destruct (fs !! file_path (day_iso current)); [|now apply Hrest].
    destruct Hp as [<-|Hp]; [|now apply Hrest].
    exists current. split; [lia|reflexivity].
Qed.



(* ===================================================================== *)
(** * Claims on the read path *)
(* ===================================================================== *)

(** C1, refuted by the code. The heart rate of a minute bucket should
    be the mean, rounded to two decimals, of all readings of the winning
    device in that minute: 72.00 for readings 70, 72 and 74. The chain
    keeps one row per minute with [first()] before it takes the mean, so
    the mean is that of a single reading. With a sort that keeps the
    stored order the three readings give 70; whatever the sort, readings
    70 and 76 give 70 or 76, never their mean 73. *)
Theorem mean_of_a_single_reading :
  round2 (mean [70; 72; 74]) = inject_Z 72
  /\ query_metrics (H := stable_sorter) st_three "u"
       "2024-01-15T10:00:00Z" "2024-01-15T10:01:00Z" None
     = Ok [mk_bucket (inject_Z 70) "device_a" "2024-01-15T10:00:00Z"]
  /\ round2 (mean [70; 76]) = inject_Z 73
  /\ forall S : Sorter,
       exists out,
         query_metrics st_two "u" "2024-01-15T10:00:00Z"
           "2024-01-15T10:01:00Z" None = Ok out
         /\ out <> []
         /\ forall b, In b out ->
              b_heart_rate b = inject_Z 70 \/ b_heart_rate b = inject_Z 76.
Proof.
  split; [vm_compute; reflexivity|]. split; [vm_compute; reflexivity|].
  split; [vm_compute; reflexivity|]. intros S.
  assert (Hf : filtered_rows st_two "u" "2024-01-15T10:00:00Z"
                 "2024-01-15T10:01:00Z" None = Ok [a70; a76])
    by (vm_compute; reflexivity).
  assert (Hq : exists out,
             query_metrics st_two "u" "2024-01-15T10:00:00Z"
               "2024-01-15T10:01:00Z" None = Ok out).
  { unfold query_metrics. rewrite Hf.
    assert (Hk : exists keyed, with_minute_bucket [a70; a76] = Ok keyed)
      by (eexists; vm_compute; reflexivity).
    destruct Hk as [keyed ->]. eauto. }
  destruct Hq as [out Hq]. exists out. split; [exact Hq|]. split.
  - destruct (query_metrics_covers _ _ _ _ _ _ _ a70 Hf Hq) as (t & b & _ & Hb & _);
      [now left|].
    intros ->. destruct Hb.
  - intros b Hb.
    destruct (query_metrics_bucket _ _ _ _ _ _ _ b Hf Hq Hb)
      as (r & t & Hr & _ & -> & _).
    destruct Hr as [<-|[<-|[]]]; [now left|now right].
Qed.



Lemma NoDup_map_injective {A B : Type} (f : A -> B) (l : list A) :
  (forall x y, f x = f y -> x = y) ->
  List.NoDup l -> List.NoDup (map f l).
Proof.
  intros Hinj. induction 1 as [|x l Hx Hnd IH]; simpl; constructor;
    [|exact IH].
  intros Hin. apply in_map_iff in Hin as (y & E & Hy).
  apply Hinj in E. now subst.
Qed.

(** C7. The answer of a query is in ascending order of timestamp, no two
    of its buckets have the same timestamp, and every timestamp is a
    minute printed as [YYYY-MM-DDTHH:MM:00Z], seconds zero. *)
Theorem query_metrics_ordered `{Sorter} st user start end_ device out :
  query_metrics st user start end_ device = Ok out ->
  StronglySorted
    (fun a b => String.leb (b_timestamp a) (b_timestamp b) = true) out
  /\ List.NoDup (map b_timestamp out)
  /\ Forall (fun b => exists t, t mod 60 = 0 /\ b_timestamp b = strftime t
                               /\ minute_format (b_timestamp b)) out.
Proof.
  intros Hq.
  assert (Hf : exists filtered,
             filtered_rows st user start end_ device = Ok filtered).
  { unfold query_metrics in Hq.
    destruct (filtered_rows st user start end_ device); [eauto|discriminate]. }
  destruct Hf as [filtered Hf].
  destruct (query_metrics_inv _ _ _ _ _ _ _ Hf Hq) as (keyed & Hk & ->).
  destruct (with_minute_bucket_spec _ _ Hk) as [Em Hall].
  assert (Hu : Forall (fun k => user_id (row k) = user) keyed).
  { apply filtered_rows_user in Hf. rewrite <- Em in Hf.
    apply List.Forall_forall. intros k Hin.
    rewrite List.Forall_forall in Hf. apply Hf. now apply in_map. }
  split; [|split].
  - apply (sort_by_sorted _ timestamp_leb);
      [apply timestamp_leb_total|apply timestamp_leb_trans].
  - eapply Permutation_NoDup;
      [symmetry; apply Permutation_map, sort_by_perm|].
    rewrite map_map. cbn [bucket_of_keyed b_timestamp].
    rewrite <- (map_map minute_bucket strftime).
    apply NoDup_map_injective; [intros t1 t2; apply strftime_inj|].
    eapply firsts_NoDup_minutes. exact Hu.
  - eapply Permutation_Forall; [symmetry; apply sort_by_perm|].
    apply List.Forall_forall. intros b Hb.
    apply in_map_iff in Hb as (k & <- & Hin).
    apply firsts_In in Hin. rewrite List.Forall_forall in Hall.
    destruct (Hall _ Hin) as [Hbk _]. unfold bucket_of in Hbk.
    destruct (strptime (pl_replace_Z (timestamp (row k)))) as [t|];
      [|discriminate].
    injection Hbk as Hbk. cbn [bucket_of_keyed b_timestamp].
    exists (minute_bucket k). rewrite <- Hbk.
    split; [apply truncate_1m_aligned|]. split; [reflexivity|].
    apply strftime_truncate_1m.
Qed.

Lemma query_metrics_ordered_witness :
  query_metrics (H := stable_sorter) st_three "u" "2024-01-15T10:00:00Z"
    "2024-01-15T10:01:00Z" None
  = Ok [mk_bucket (inject_Z 70) "device_a" "2024-01-15T10:00:00Z"]
  /\ StronglySorted
       (fun a b => String.leb (b_timestamp a) (b_timestamp b) = true)
       [mk_bucket (inject_Z 70) "device_a" "2024-01-15T10:00:00Z"]
  /\ List.NoDup
       (map b_timestamp
          [mk_bucket (inject_Z 70) "device_a" "2024-01-15T10:00:00Z"])
  /\ Forall (fun b => exists t, t mod 60 = 0 /\ b_timestamp b = strftime t
                                /\ minute_format (b_timestamp b))
       [mk_bucket (inject_Z 70) "device_a" "2024-01-15T10:00:00Z"].
Proof.
  split; [vm_compute; reflexivity|].
  apply (query_metrics_ordered (H := stable_sorter) st_three "u"
           "2024-01-15T10:00:00Z" "2024-01-15T10:01:00Z" None).
  vm_compute; reflexivity.
Defined.

(** C8, refuted by the code. A stored reading should pass the time
    filter exactly when its instant lies between the bounds, the strings
    being compared after the [Z] and offset forms are brought to one
    form. The filter compares the strings as stored and as given: the
    reading stored with [Z] at 10:00:05 and the end bound written
    [10:00:05+00:00] are the same instant, yet the reading is left out,
    while the bound written with [Z] keeps it. *)
Theorem time_filter_on_raw_strings :
  strptime (pl_replace_Z (timestamp a70))
  = strptime (pl_replace_Z "2024-01-15T10:00:05+00:00")
  /\ keep_row "u" "2024-01-15T10:00:00+00:00" "2024-01-15T10:00:05+00:00"
       None a70 = false
  /\ query_metrics (H := stable_sorter) (init (<[path := [a70]]> ∅)) "u"
       "2024-01-15T10:00:00+00:00" "2024-01-15T10:00:05+00:00" None
     = Ok []
  /\ query_metrics (H := stable_sorter) (init (<[path := [a70]]> ∅)) "u"
       "2024-01-15T10:00:00Z" "2024-01-15T10:00:05Z" None
     = Ok [mk_bucket (inject_Z 70) "device_a" "2024-01-15T10:00:00Z"].
Proof.
  split; [vm_compute; reflexivity|]. split; [vm_compute; reflexivity|].
  split; vm_compute; reflexivity.
Qed.

(* ===================================================================== *)
(** * Further properties of the code *)
(* ===================================================================== *)

Import Select Api.

(** ** Civil dates and day numbers, the other way round *)

Lemma yoe_recover yoe doy :
  0 <= yoe <= 399 -> 0 <= doy <= 365 ->
  (doy = 365 -> (yoe + 1) mod 4 = 0 /\ ((yoe + 1) mod 100 <> 0 \/ yoe = 399)) ->
  (yoe * 365 + yoe / 4 - yoe / 100 + doy
   - (yoe * 365 + yoe / 4 - yoe / 100 + doy) / 1460
   + (yoe * 365 + yoe / 4 - yoe / 100 + doy) / 36524
   - (yoe * 365 + yoe / 4 - yoe / 100 + doy) / 146096) / 365 = yoe.
Proof. intros Hy Hd Hl. Z.div_mod_to_equations; lia. Qed.

Lemma month_recover mp d :
  0 <= mp <= 11 -> 1 <= d <= 31 ->
  (mp = 11 -> d <= 29) ->
  (mp = 1 \/ mp = 3 \/ mp = 6 \/ mp = 8 -> d <= 30) ->
  let doy := (153 * mp + 2) / 5 + d - 1 in
  (5 * doy + 2) / 153 = mp /\ doy - (153 * mp + 2) / 5 + 1 = d /\ 0 <= doy <= 365
  /\ (doy = 365 -> mp = 11 /\ d = 29).
Proof. intros Hm Hd H29 H30 doy. subst doy. Z.div_mod_to_equations; lia. Qed.

Lemma valid_date_inv y m d :
  valid_date y m d = true ->
  1 <= m <= 12 /\ 1 <= d <= 31
  /\ (m = 2 -> d <= 29)
  /\ (m = 2 -> d = 29 -> y mod 4 = 0 /\ (y mod 100 <> 0 \/ y mod 400 = 0))
  /\ (m = 4 \/ m = 6 \/ m = 9 \/ m = 11 -> d <= 30).
Proof.
  unfold valid_date, days_in_month, is_leap.
  rewrite !andb_true_iff, !Z.leb_le. intros [[[Hm1 Hm2] Hd1] Hd2].
  destruct (Z.eqb_spec m 2), (Z.eqb_spec m 4), (Z.eqb_spec m 6),
    (Z.eqb_spec m 9), (Z.eqb_spec m 11), (Z.eqb_spec (y mod 4) 0),
    (Z.eqb_spec (y mod 100) 0), (Z.eqb_spec (y mod 400) 0);
    simpl in Hd2; lia.
Qed.

Lemma doe_bound yoe doy :
  0 <= yoe <= 399 -> 0 <= doy <= 365 ->
  0 <= yoe * 365 + yoe / 4 - yoe / 100 + doy < 146097.
Proof. intros Hy Hd. Z.div_mod_to_equations; lia. Qed.

Lemma era_recover era doe :
  0 <= doe < 146097 -> (era * 146097 + doe) / 146097 = era.
Proof. intros Hd. Z.div_mod_to_equations; lia. Qed.

Lemma civil_from_days_from_civil y m d :
  valid_date y m d = true ->
  civil_from_days (days_from_civil y m d) = (y, m, d).
Proof.
  intros Hv. apply valid_date_inv in Hv as (Hm & Hd & H29 & Hleap & H30).
  unfold civil_from_days, days_from_civil.
  assert (Hcase : exists y' mp,
            (if m <=? 2 then y - 1 else y) = y'
            /\ (if m <=? 2 then m + 9 else m - 3) = mp
            /\ 0 <= mp <= 11 /\ (mp = 11 -> m = 2 /\ y' = y - 1)
            /\ (mp = 1 \/ mp = 3 \/ mp = 6 \/ mp = 8 -> d <= 30)
            /\ (if mp <? 10 then mp + 3 else mp - 9) = m
            /\ (if m <=? 2 then y' + 1 else y') = y).
  { destruct (Z.leb_spec m 2).
    - exists (y - 1), (m + 9). destruct (Z.ltb_spec (m + 9) 10); repeat split; lia.
    - exists y, (m - 3). destruct (Z.ltb_spec (m - 3) 10); repeat split; lia. }
  destruct Hcase as (y' & mp & -> & -> & Hmp & Hmp11 & Hmp30 & Em & Ey).
  set (era := y' / 400). set (yoe := y' - era * 400).
  assert (Hyoe : 0 <= yoe <= 399).
  { clear. subst yoe era. Z.div_mod_to_equations; lia. }
  destruct (month_recover mp d Hmp Hd) as (Emp & Ed & Hdoy & H365).
  { intros E. apply H29. now apply Hmp11. }
  { exact Hmp30. }
  set (doy := (153 * mp + 2) / 5 + d - 1) in *.
  assert (Hl : doy = 365 -> (yoe + 1) mod 4 = 0 /\ ((yoe + 1) mod 100 <> 0 \/ yoe = 399)).
  { intros E. destruct (H365 E) as [E11 E29]. destruct (Hmp11 E11) as [E2 Ey'].
    destruct (Hleap E2 E29) as [H4 H100].
    subst yoe era. rewrite Ey'. Z.div_mod_to_equations; lia. }
  pose proof (yoe_recover yoe doy Hyoe Hdoy Hl) as Eyoe.
  set (doe := yoe * 365 + yoe / 4 - yoe / 100 + doy) in *.
  pose proof (doe_bound yoe doy Hyoe Hdoy) as Hdoe. fold doe in Hdoe.
  replace (era * 146097 + doe - 719468 + 719468) with (era * 146097 + doe) by lia.
  rewrite (era_recover era doe Hdoe).
  replace (era * 146097 + doe - era * 146097) with doe by lia.
  rewrite Eyoe.
  replace (doe - (365 * yoe + yoe / 4 - yoe / 100)) with doy by (subst doe; lia).
  rewrite Emp, Ed, Em.
  replace (yoe + era * 400) with y' by (subst yoe; lia).
  now rewrite Ey.
Qed.

(** ** More on the write path *)

(** The files after the loop over [records_by_date], date by date. *)
Lemma flush_files_lookup buf fs d :
  fold_left write_group (group_by String.eqb date buf) fs !! file_path d =
  match List.filter (fun r => String.eqb d (date r)) buf with
  | [] => fs !! file_path d
  | rs => Some (default [] (fs !! file_path d) ++ rs)
  end.
Proof.
  destruct (group_by_spec String.eqb date String.eqb_eq buf)
    as (Hnd & Hrows & Hkeys).
  rewrite write_groups_lookup by exact Hnd.
  destruct (List.filter (fun g => String.eqb d (fst g))
              (group_by String.eqb date buf)) as [|g l] eqn:Eg.
  - replace (List.filter (fun r => String.eqb d (date r)) buf)
      with (@nil Row); [reflexivity|].
    symmetry. destruct (List.filter _ buf) as [|r l] eqn:Er; [reflexivity|].
    exfalso.
    assert (Hr : In r (List.filter (fun r => String.eqb d (date r)) buf))
      by (rewrite Er; now left).
    apply filter_In in Hr as [Hr Hd]. apply String.eqb_eq in Hd. subst d.
    apply Hkeys in Hr. apply in_map_iff in Hr as (g & Hg1 & Hg2).
    assert (Hin : In g (List.filter (fun g => String.eqb (date r) (fst g))
                          (group_by String.eqb date buf))).
    { apply filter_In. split; [exact Hg2|]. now apply String.eqb_eq. }
    rewrite Eg in Hin. destruct Hin.
  - assert (Hg : In g (List.filter (fun g => String.eqb d (fst g))
                         (group_by String.eqb date buf)))
      by (rewrite Eg; now left).
    apply filter_In in Hg as [Hg Hd]. apply String.eqb_eq in Hd.
    destruct g as [k rows]. simpl in Hd. subst k.
    destruct (Hrows _ _ Hg) as [-> Hne]. cbn [snd].
    destruct (List.filter (fun x => String.eqb d (date x)) buf);
      [congruence|reflexivity].
Qed.

(** A file only grows at its end in the loop of a flush. *)
Lemma write_groups_extend groups fs p rows :
  fs !! p = Some rows ->
  exists more, fold_left write_group groups fs !! p = Some (rows ++ more).
Proof.
  revert fs rows. induction groups as [|g rest IH]; intros fs rows Hp.
  - exists []. now rewrite app_nil_r.
  - cbn [fold_left].
    assert (Hg : exists more, write_group fs g !! p = Some (rows ++ more)).
    { unfold write_group.
      destruct (decide (file_path (fst g) = p)) as [E|Hne].
      - rewrite E, Hp. exists (snd g). apply lookup_insert_eq.
      - exists []. rewrite app_nil_r.
        destruct (fs !! file_path (fst g)); now rewrite lookup_insert_ne. }
    destruct Hg as [more Hg]. destruct (IH _ _ Hg) as [more' Hm].
    exists (more ++ more'). now rewrite app_assoc.
Qed.

(** A path that is the file of no group is left alone. *)
Lemma write_groups_other groups fs p :
  (forall g, In g groups -> file_path (fst g) <> p) ->
  fold_left write_group groups fs !! p = fs !! p.
Proof.
  revert fs. induction groups as [|g rest IH]; intros fs Hp; [reflexivity|].
  cbn [fold_left]. rewrite IH by (intros g' Hg'; apply Hp; now right).
  unfold write_group. assert (Hne := Hp g (or_introl eq_refl)).
  destruct (fs !! file_path (fst g)); now rewrite lookup_insert_ne.
Qed.

Lemma group_by_key_In {K A : Type} (eqb : K -> K -> bool) (key : A -> K)
    (Heq : forall k1 k2, eqb k1 k2 = true <-> k1 = k2) l g :
  In g (group_by eqb key l) -> exists x, In x l /\ key x = fst g.
Proof.
  intros Hg. destruct (group_by_spec eqb key Heq l) as (_ & Hrows & _).
  destruct g as [k rows]. destruct (Hrows _ _ Hg) as [E Hne].
  destruct rows as [|x rest]; [congruence|].
  assert (Hx : In x (List.filter (fun y => eqb k (key y)) l))
    by (rewrite <- E; now left).
  apply filter_In in Hx as [Hx Hk]. apply Heq in Hk.
  exists x. split; [exact Hx|now symmetry].
Qed.

(** X1. Below the threshold [ingest_metric] only buffers: with the lock
    free and fewer than [BATCH_SIZE - 1] records waiting, a call with a
    timestamp that parses returns, the buffer is the old one followed
    by the new record, the files are untouched and the lock is free
    again. Stated for the years from 1000 on, which [strftime("%Y")]
    prints with four digits on every platform. *)
Theorem ingest_metric_appends st device user ts hr dt :
  fromisoformat (py_replace_Z ts) = Some dt ->
  1000 <= dt_year dt ->
  write_lock st = false ->
  (length (write_buffer st) < 99)%nat ->
  ingest_metric device user ts hr st
  = Returns tt
      (mk_state
         (write_buffer st
          ++ [mk_row device user ts hr
                (date_iso (dt_year dt) (dt_month dt) (dt_day dt))])
         false (files st)).
Proof.
  intros Hp _ Hl Hn. unfold ingest_metric. rewrite Hp.
  destruct st as [buf lock fs]. simpl in Hl, Hn. subst lock.
  unfold mbind, M_bind, bind, with_lock, modify, gets, set_buffer, set_lock,
    ret. cbn [write_lock write_buffer files].
  assert (E : deque_append buf
                (mk_row device user ts hr
                   (date_iso (dt_year dt) (dt_month dt) (dt_day dt)))
              = buf ++ [mk_row device user ts hr
                          (date_iso (dt_year dt) (dt_month dt) (dt_day dt))]).
  { unfold deque_append, maxlen, BATCH_SIZE.
    destruct (Z.leb_spec (100 * 2) (Z.of_nat (length buf))); [lia|reflexivity]. }
  rewrite E.
  destruct (Z.leb_spec BATCH_SIZE
              (Z.of_nat (length (buf ++ [mk_row device user ts hr
                 (date_iso (dt_year dt) (dt_month dt) (dt_day dt))]))))
    as [Hge|Hlt]; [|reflexivity].
  rewrite length_app in Hge. unfold BATCH_SIZE in Hge. simpl in Hge. lia.
Qed.

Lemma ingest_metric_appends_witness :
  fromisoformat (py_replace_Z "2024-01-15T10:00:00Z")
  = Some (mk_datetime 2024 1 15 10 0 0 (Some 0))
  /\ write_lock (init ∅) = false
  /\ (length (write_buffer (init ∅)) < 99)%nat
  /\ ingest_metric "device_a" "u" "2024-01-15T10:00:00Z" 70 (init ∅)
     = Returns tt
         (mk_state
            ([] ++ [mk_row "device_a" "u" "2024-01-15T10:00:00Z" 70
                      (date_iso 2024 1 15)])
            false ∅).
Proof.
  split; [reflexivity|]. split; [reflexivity|]. split; [simpl; lia|].
  apply (ingest_metric_appends (init ∅) "device_a" "u"
           "2024-01-15T10:00:00Z" 70 (mk_datetime 2024 1 15 10 0 0 (Some 0)));
    [reflexivity|vm_compute; discriminate|reflexivity|simpl; lia].
Defined.

(** X2. At the threshold [ingest_metric] never returns: with the lock
    free and [BATCH_SIZE - 1] records or more waiting, the call appends,
    calls [_flush_buffer] while it holds the lock and waits on that lock
    for ever. Nothing is written, and from the state it leaves every
    flush, every [ingest_metric] and every [ingest_batch] with a
    well-formed entry waits as well. *)
Theorem ingest_metric_deadlock st device user ts hr dt :
  fromisoformat (py_replace_Z ts) = Some dt ->
  write_lock st = false ->
  (99 <= length (write_buffer st))%nat ->
  exists st',
    ingest_metric device user ts hr st = Blocks st'
    /\ write_lock st' = true
    /\ files st' = files st
    /\ flush st' = Blocks st'
    /\ (forall device' user' ts' hr' dt',
          fromisoformat (py_replace_Z ts') = Some dt' ->
          ingest_metric device' user' ts' hr' st' = Blocks st')
    /\ (forall readings,
          flat_map record_of readings <> [] ->
          ingest_batch readings st' = Blocks st').
Proof.
  intros Hp Hl Hn. unfold ingest_metric at 1. rewrite Hp.
  destruct st as [buf lock fs]. simpl in Hl, Hn. subst lock.
  unfold mbind, M_bind, bind, with_lock, modify, gets, set_buffer, set_lock.
  cbn [write_lock write_buffer files].
  set (record := mk_row device user ts hr
                   (date_iso (dt_year dt) (dt_month dt) (dt_day dt))).
  assert (Hlen : (100 <= length (deque_append buf record))%nat).
  { unfold deque_append, maxlen, BATCH_SIZE.
    destruct (Z.leb_spec (100 * 2) (Z.of_nat (length buf)));
      rewrite length_app; simpl; [|lia].
    destruct buf; simpl in *; lia. }
  destruct (Z.leb_spec BATCH_SIZE (Z.of_nat (length (deque_append buf record))))
    as [_|Hlt]; [|unfold BATCH_SIZE in Hlt; lia].
  unfold _flush_buffer, with_lock. cbn [write_lock].
  eexists. split; [reflexivity|]. cbn [write_lock write_buffer files].
  split; [reflexivity|]. split; [reflexivity|]. split; [reflexivity|]. split.
  - intros device' user' ts' hr' dt' Hp'. unfold ingest_metric.
    rewrite Hp'. reflexivity.
  - intros readings Hne. unfold ingest_batch. rewrite scan_batch_spec.
    cbn [app]. destruct (flat_map record_of readings); [congruence|].
    reflexivity.
Qed.

Lemma ingest_metric_deadlock_witness :
  fromisoformat (py_replace_Z "2024-01-15T10:00:00Z")
  = Some (mk_datetime 2024 1 15 10 0 0 (Some 0))
  /\ write_lock st_99 = false
  /\ (99 <= length (write_buffer st_99))%nat
  /\ exists st',
       ingest_metric "device_a" "u" "2024-01-15T10:00:00Z" 70 st_99
       = Blocks st'
       /\ write_lock st' = true
       /\ files st' = files st_99
       /\ flush st' = Blocks st'
       /\ (forall device' user' ts' hr' dt',
             fromisoformat (py_replace_Z ts') = Some dt' ->
             ingest_metric device' user' ts' hr' st' = Blocks st')
       /\ (forall readings,
             flat_map record_of readings <> [] ->
             ingest_batch readings st' = Blocks st').
Proof.
  split; [reflexivity|]. split; [reflexivity|]. split; [simpl; lia|].
  apply (ingest_metric_deadlock st_99 "device_a" "u" "2024-01-15T10:00:00Z"
           70 (mk_datetime 2024 1 15 10 0 0 (Some 0)));
    [reflexivity|reflexivity|simpl; lia].
Defined.

(** ** Reading a date back *)

Lemma append_cons c (a b : string) : String c a +:+ b = String c (a +:+ b).
Proof. reflexivity. Qed.

Lemma append_nil_l (b : string) : EmptyString +:+ b = b.
Proof. reflexivity. Qed.

Lemma append_assoc (a b c : string) : (a +:+ b) +:+ c = a +:+ (b +:+ c).
Proof.
  induction a as [|x a IH]; [reflexivity|].
  now rewrite !append_cons, IH.
Qed.

Lemma digit_val_inv c n : digit_val c = Some n -> 0 <= n <= 9 /\ c = digit n.
Proof.
  unfold digit_val, digit.
  destruct (Z.leb_spec 48 (Z.of_nat (nat_of_ascii c)));
    destruct (Z.leb_spec (Z.of_nat (nat_of_ascii c)) 57); cbn [andb];
    try discriminate.
  intros [= <-]. split; [lia|].
  replace (48 + Z.to_nat (Z.of_nat (nat_of_ascii c) - 48))%nat
    with (nat_of_ascii c) by lia.
  now rewrite ascii_nat_embedding.
Qed.

(** Printing a number with one more leading digit. *)
Lemma digits_leading k dd n :
  0 <= dd <= 9 -> 0 <= n < 10 ^ Z.of_nat k ->
  digits (S k) (dd * 10 ^ Z.of_nat k + n) = String (digit dd) (digits k n).
Proof.
  revert n. induction k as [|k IH]; intros n Hd Hn.
  - change (Z.of_nat 0) with 0 in *. rewrite Z.pow_0_r in *.
    assert (n = 0) by lia. subst n. cbn [digits].
    rewrite append_nil_l. do 2 f_equal. Z.div_mod_to_equations; lia.
  - change (digits (S (S k)) (dd * 10 ^ Z.of_nat (S k) + n))
      with (digits (S k) ((dd * 10 ^ Z.of_nat (S k) + n) / 10)
            +:+ String (digit ((dd * 10 ^ Z.of_nat (S k) + n) mod 10))
                  EmptyString).
    rewrite Nat2Z.inj_succ, Z.pow_succ_r in * by lia.
    set (q := 10 ^ Z.of_nat k) in *.
    replace ((dd * (10 * q) + n) / 10) with (dd * q + n / 10)
      by (Z.div_mod_to_equations; nia).
    replace ((dd * (10 * q) + n) mod 10) with (n mod 10)
      by (Z.div_mod_to_equations; nia).
    rewrite IH by (try assumption; Z.div_mod_to_equations; lia).
    reflexivity.
Qed.

(** What [take_digits] read is what [digits] prints. *)
Lemma take_digits_spec k acc s n rest :
  take_digits k acc s = Some (n, rest) ->
  exists n0, 0 <= n0 < 10 ^ Z.of_nat k
             /\ n = acc * 10 ^ Z.of_nat k + n0
             /\ s = digits k n0 +:+ rest.
Proof.
  revert acc s. induction k as [|k IH]; intros acc s; cbn [take_digits].
  - intros [= <- <-]. exists 0. simpl. split; [lia|]. split; [lia|reflexivity].
  - destruct s as [|c s']; [discriminate|].
    destruct (digit_val c) as [dd|] eqn:Ec; [|discriminate].
    intros Ht. apply digit_val_inv in Ec as [Hdd ->].
    destruct (IH _ _ Ht) as (n1 & Hn1 & -> & ->).
    exists (dd * 10 ^ Z.of_nat k + n1).
    rewrite Nat2Z.inj_succ, Z.pow_succ_r by lia.
    split; [nia|]. split; [lia|].
    now rewrite digits_leading.
Qed.

Lemma expect_spec c s s' : expect c s = Some s' -> s = String c s'.
Proof.
  destruct s as [|c' s0]; simpl; [discriminate|].
  destruct (Ascii.eqb_spec c c'); [|discriminate]. now intros [= <-]; subst.
Qed.

(** A string that [parse_date] accepts starts with the date printed. *)
Lemma parse_date_spec s y m d rest :
  parse_date s = Some (y, m, d, rest) ->
  s = date_iso y m d +:+ rest /\ valid_date y m d = true /\ 0 <= y <= 9999.
Proof.
  unfold parse_date. intros Hp.
  apply bind_Some in Hp as ([y0 s1] & E1 & Hp).
  apply bind_Some in Hp as (s2 & E2 & Hp).
  apply bind_Some in Hp as ([m0 s3] & E3 & Hp).
  apply bind_Some in Hp as (s4 & E4 & Hp).
  apply bind_Some in Hp as ([d0 s5] & E5 & Hp).
  destruct (valid_date y0 m0 d0) eqn:Ev; [|discriminate].
  injection Hp as <- <- <- <-.
  apply take_digits_spec in E1 as (ny & Hy & -> & ->).
  apply take_digits_spec in E3 as (nm & Hm & -> & ->).
  apply take_digits_spec in E5 as (nd & Hd & -> & ->).
  apply expect_spec in E2 as ->. apply expect_spec in E4 as ->.
  rewrite !Z.mul_0_l, !Z.add_0_l in *.
  split; [|split; [exact Ev|simpl in Hy; lia]].
  unfold date_iso. rewrite !append_assoc. reflexivity.
Qed.

Lemma all_chars_append P a b :
  all_chars P a -> all_chars P b -> all_chars P (a +:+ b).
Proof.
  induction a as [|c a IH]; [now rewrite append_nil_l|].
  rewrite append_cons. cbn [all_chars]. intros [Hc Ha] Hb. auto.
Qed.

Lemma digits_no_plus k n : all_chars (fun c => c <> "+"%char) (digits k n).
Proof.
  revert n. induction k as [|k IH]; intros n; cbn [digits]; [exact I|].
  apply all_chars_append; [apply IH|]. split; [|exact I].
  apply digit_not_sign; [Z.div_mod_to_equations; lia|reflexivity].
Qed.

Lemma date_iso_no_plus y m d :
  all_chars (fun c => c <> "+"%char) (date_iso y m d).
Proof.
  unfold date_iso.
  apply all_chars_append; [apply digits_no_plus|].
  rewrite append_cons, append_nil_l. split; [discriminate|].
  apply all_chars_append; [apply digits_no_plus|].
  rewrite append_cons, append_nil_l. split; [discriminate|].
  apply digits_no_plus.
Qed.

Lemma date_iso_length y m d : String.length (date_iso y m d) = 10%nat.
Proof.
  unfold date_iso. rewrite !length_append, !digits_length. reflexivity.
Qed.

(** A prefix without [+] of the replaced string is a prefix of the
    string itself: up to there, no [Z] was replaced. *)
Lemma py_replace_Z_prefix p ts rest :
  all_chars (fun c => c <> "+"%char) p ->
  py_replace_Z ts = p +:+ rest ->
  exists ts', ts = p +:+ ts' /\ py_replace_Z ts' = rest.
Proof.
  revert ts. induction p as [|c p IH]; intros ts Hp E.
  - exists ts. split; [reflexivity|exact E].
  - destruct Hp as [Hc Hp]. destruct ts as [|a ts0]; [discriminate|].
    cbn [py_replace_Z] in E. destruct (Ascii.eqb a "Z").
    + cbn [String.append] in E. injection E as E _. congruence.
    + cbn [String.append] in E. injection E as -> E.
      destruct (IH _ Hp E) as (ts' & -> & Hr). exists ts'. now split.
Qed.

Lemma substring_prefix p s : substring 0 (String.length p) (p +:+ s) = p.
Proof.
  induction p as [|c p IH]; simpl; [now destruct s|now rewrite IH].
Qed.

(** The date [fromisoformat] finds is the first ten characters of the
    timestamp, as written. *)
Lemma fromisoformat_date ts dt :
  fromisoformat (py_replace_Z ts) = Some dt ->
  date_iso (dt_year dt) (dt_month dt) (dt_day dt) = substring 0 10 ts
  /\ valid_date (dt_year dt) (dt_month dt) (dt_day dt) = true.
Proof.
  unfold fromisoformat. intros Hf.
  apply bind_Some in Hf as ([[[y m] d] rest] & Ep & Hf).
  apply parse_date_spec in Ep as (Es & Hv & _).
  assert (Hdt : dt_year dt = y /\ dt_month dt = m /\ dt_day dt = d).
  { destruct (y <? 1); [discriminate|].
    destruct rest as [|c rest0]; [now injection Hf as <-|].
    apply bind_Some in Hf as (s1 & _ & Hf).
    apply bind_Some in Hf as ([[[h mi] sec] s2] & _ & Hf).
    destruct s2 as [|c2 s2']; [now injection Hf as <-|].
    apply bind_Some in Hf as ([off s3] & _ & Hf).
    destruct s3; [now injection Hf as <-|discriminate]. }
  destruct Hdt as (-> & -> & ->). split; [|exact Hv].
  apply py_replace_Z_prefix in Es as (ts' & -> & _);
    [|apply date_iso_no_plus].
  pose proof (substring_prefix (date_iso y m d) ts') as Hs.
  rewrite date_iso_length in Hs. now rewrite Hs.
Qed.

(** X3. A reading whose timestamp is written [YYYY-MM-DD],
    [YYYY-MM-DDTHH:MM:SS] or [YYYY-MM-DDTHH:MM:SS] with [Z] or an offset
    [+HH:MM] (the forms for which [fromisoformat] is modelled here) is
    routed by the date written in it: the record [ingest_batch] builds
    carries the entry's four fields, and its [date], which names the
    partition file, is the first ten characters of the timestamp (the
    date in the reading's own offset, not the UTC date). Stated for the
    years from 1000 on, which [strftime("%Y")] prints with four digits
    on every platform. *)
Theorem to_record_routes_by_written_date reading r dt :
  to_record reading = Ok r ->
  fromisoformat (py_replace_Z (timestamp r)) = Some dt ->
  1000 <= dt_year dt ->
  rd_device_id reading = Some (device_id r)
  /\ rd_user_id reading = Some (user_id r)
  /\ rd_timestamp reading = Some (timestamp r)
  /\ rd_heart_rate reading = Some (heart_rate r)
  /\ date r = substring 0 10 (timestamp r).
Proof.
  unfold to_record. intros Hr _ _.
  destruct (rd_timestamp reading) as [ts|]; [|discriminate].
  destruct (fromisoformat (py_replace_Z ts)) as [dt'|] eqn:Ef; [|discriminate].
  destruct (rd_device_id reading) as [dv|]; [|discriminate].
  destruct (rd_user_id reading) as [u|]; [|discriminate].
  destruct (rd_heart_rate reading) as [hr|]; [|discriminate].
  injection Hr as <-. cbn [device_id user_id timestamp heart_rate date].
  repeat split. now apply fromisoformat_date.
Qed.

Lemma to_record_routes_by_written_date_witness :
  to_record
    (mk_reading (Some "device_a") (Some "u")
       (Some "2024-01-15T00:30:00+05:00") (Some 70))
  = Ok (mk_row "device_a" "u" "2024-01-15T00:30:00+05:00" 70 "2024-01-15")
  /\ date (mk_row "device_a" "u" "2024-01-15T00:30:00+05:00" 70 "2024-01-15")
     = substring 0 10 "2024-01-15T00:30:00+05:00"
  /\ (strftime <$> strptime "2024-01-15T00:30:00+05:00")
     = Some "2024-01-14T19:30:00Z".
Proof.
  split; [reflexivity|]. split; [|vm_compute; reflexivity].
  apply (to_record_routes_by_written_date
           (mk_reading (Some "device_a") (Some "u")
              (Some "2024-01-15T00:30:00+05:00") (Some 70))
           (mk_row "device_a" "u" "2024-01-15T00:30:00+05:00" 70 "2024-01-15")
           (mk_datetime 2024 1 15 0 30 0 (Some 300)));
    [reflexivity|vm_compute; reflexivity|vm_compute; discriminate].
Defined.

(** ** Flushing, and what every call leaves behind *)

Lemma flush_stores_witness :
  write_lock (mk_state [a75] false (<[path := [b80]]> ∅)) = false
  /\ exists st',
       flush (mk_state [a75] false (<[path := [b80]]> ∅)) = Returns tt st'
       /\ write_buffer st' = [] /\ write_lock st' = false
       /\ forall d,
            files st' !! file_path d =
            match List.filter (fun r => String.eqb d (date r))
                    (write_buffer (mk_state [a75] false (<[path := [b80]]> ∅)))
            with
            | [] => files (mk_state [a75] false (<[path := [b80]]> ∅))
                    !! file_path d
            | rs => Some (default []
                            (files (mk_state [a75] false (<[path := [b80]]> ∅))
                             !! file_path d) ++ rs)
            end.
Proof.
  split; [reflexivity|].
  apply (flush_stores (mk_state [a75] false (<[path := [b80]]> ∅))).
  reflexivity.
Defined.

(** What a flush that returns did. *)
Lemma flush_returns st st' :
  flush st = Returns tt st' ->
  write_lock st = false
  /\ st' = mk_state [] false
             (fold_left write_group
                (group_by String.eqb date (write_buffer st)) (files st)).
Proof.
  unfold flush, _flush_buffer, with_lock, _flush_buffer_unlocked.
  destruct st as [buf lock fs]. cbn [write_lock write_buffer files set_lock].
  destruct lock; [discriminate|].
  destruct buf as [|r buf]; intros [= <-]; split; reflexivity.
Qed.

(** X5. A flush only appends: every file keeps the rows it had, in
    their order, as a prefix of its new content, and a file that is not
    the partition of a buffered record holds exactly what it held. *)
Theorem flush_append_only st st' :
  flush st = Returns tt st' ->
  (forall p rows, files st !! p = Some rows ->
     exists more, files st' !! p = Some (rows ++ more))
  /\ (forall p,
        (forall r, In r (write_buffer st) -> file_path (date r) <> p) ->
        files st' !! p = files st !! p).
Proof.
  intros Hf. apply flush_returns in Hf as [_ ->]. cbn [files]. split.
  - intros p rows Hp. now apply write_groups_extend.
  - intros p Hp. apply write_groups_other. intros g Hg.
    apply (group_by_key_In String.eqb date String.eqb_eq) in Hg
      as (r & Hr & <-).
    now apply Hp.
Qed.

Lemma flush_append_only_witness :
  flush (mk_state [a75] false (<[path := [b80]]> ∅))
  = Returns tt (mk_state [] false (<[path := [b80; a75]]> ∅))
  /\ (forall p rows,
        files (mk_state [a75] false (<[path := [b80]]> ∅)) !! p = Some rows ->
        exists more,
          files (mk_state [] false (<[path := [b80; a75]]> ∅)) !! p
          = Some (rows ++ more))
  /\ (forall p,
        (forall r,
           In r (write_buffer (mk_state [a75] false (<[path := [b80]]> ∅))) ->
           file_path (date r) <> p) ->
        files (mk_state [] false (<[path := [b80; a75]]> ∅)) !! p
        = files (mk_state [a75] false (<[path := [b80]]> ∅)) !! p).
Proof.
  split; [vm_compute; reflexivity|].
  apply (flush_append_only (mk_state [a75] false (<[path := [b80]]> ∅))).
  vm_compute; reflexivity.
Defined.

(** X6. Flushing twice is flushing once: after a flush that returned,
    the buffer is empty and a second flush returns with the state
    unchanged. *)
Theorem flush_twice st st' :
  flush st = Returns tt st' ->
  write_buffer st' = [] /\ flush st' = Returns tt st'.
Proof.
  intros Hf. apply flush_returns in Hf as [_ ->]. split; reflexivity.
Qed.

Lemma flush_twice_witness :
  flush (mk_state [a75] false (<[path := [b80]]> ∅))
  = Returns tt (mk_state [] false (<[path := [b80; a75]]> ∅))
  /\ write_buffer (mk_state [] false (<[path := [b80; a75]]> ∅)) = []
  /\ flush (mk_state [] false (<[path := [b80; a75]]> ∅))
     = Returns tt (mk_state [] false (<[path := [b80; a75]]> ∅)).
Proof.
  split; [vm_compute; reflexivity|].
  apply (flush_twice (mk_state [a75] false (<[path := [b80]]> ∅))).
  vm_compute; reflexivity.
Defined.

(** X7. Within the capacity of the deque [ingest_batch] loses nothing.
    With the lock free, fewer than [BATCH_SIZE] records waiting and at
    most 200 records in all, the call returns; if the old buffer and the
    accepted records together stay below [BATCH_SIZE] they are the new
    buffer and no file changes; otherwise the buffer is empty and the
    file of every date holds its old rows followed by the records of
    that date, in order. *)
Theorem ingest_batch_keeps_all st readings :
  write_lock st = false ->
  (length (write_buffer st) < 100)%nat ->
  (length (write_buffer st) + length (flat_map record_of readings) <= 200)%nat ->
  exists counts st',
    ingest_batch readings st = Returns counts st'
    /\ write_lock st' = false
    /\ let all := write_buffer st ++ flat_map record_of readings in
       if (length all <? 100)%nat
       then write_buffer st' = all /\ files st' = files st
       else write_buffer st' = []
            /\ forall d,
                 files st' !! file_path d =
                 match List.filter (fun r => String.eqb d (date r)) all with
                 | [] => files st !! file_path d
                 | rs => Some (default [] (files st !! file_path d) ++ rs)
                 end.
Proof.
  intros Hl Hb Hc. rewrite (ingest_batch_free st readings Hl).
  do 2 eexists. split; [reflexivity|].
  destruct (flat_map record_of readings) as [|row records] eqn:E.
  - split; [exact Hl|]. cbn zeta. rewrite app_nil_r.
    destruct (Nat.ltb_spec (length (write_buffer st)) 100); [|lia].
    split; reflexivity.
  - unfold buffered. rewrite deque_extend_app by exact Hc.
    cbn zeta. set (all := write_buffer st ++ row :: records).
    unfold BATCH_SIZE.
    destruct (Z.leb_spec 100 (Z.of_nat (length all))) as [Hge|Hlt];
      destruct (Nat.ltb_spec (length all) 100) as [Hlt'|Hge']; try lia;
      cbn [write_lock write_buffer files]; (split; [exact Hl|]).
    + split; [reflexivity|]. intros d. apply flush_files_lookup.
    + split; reflexivity.
Qed.

Lemma ingest_batch_keeps_all_witness :
  write_lock (init ∅) = false
  /\ (length (write_buffer (init ∅)) < 100)%nat
  /\ (length (write_buffer (init ∅)) + length (flat_map record_of mixed_batch)
      <= 200)%nat
  /\ exists counts st',
       ingest_batch mixed_batch (init ∅) = Returns counts st'
       /\ write_lock st' = false
       /\ let all := write_buffer (init ∅) ++ flat_map record_of mixed_batch in
          if (length all <? 100)%nat
          then write_buffer st' = all /\ files st' = files (init ∅)
          else write_buffer st' = []
               /\ forall d,
                    files st' !! file_path d =
                    match List.filter (fun r => String.eqb d (date r)) all with
                    | [] => files (init ∅) !! file_path d
                    | rs => Some (default [] (files (init ∅) !! file_path d)
                                  ++ rs)
                    end.
Proof.
  split; [reflexivity|]. split; [simpl; lia|]. split; [vm_compute; lia|].
  apply (ingest_batch_keeps_all (init ∅) mixed_batch);
    [reflexivity|simpl; lia|vm_compute; lia].
Defined.

(** What an [ingest_metric] that returns did. *)
Lemma ingest_metric_returns st device user ts hr st' :
  ingest_metric device user ts hr st = Returns tt st' ->
  exists dt,
    fromisoformat (py_replace_Z ts) = Some dt
    /\ write_lock st = false
    /\ st' = mk_state
               (deque_append (write_buffer st)
                  (mk_row device user ts hr
                     (date_iso (dt_year dt) (dt_month dt) (dt_day dt))))
               false (files st)
    /\ (length (write_buffer st') < 100)%nat.
Proof.
  unfold ingest_metric.
  destruct (fromisoformat (py_replace_Z ts)) as [dt|]; [|discriminate].
  destruct st as [buf lock fs].
  unfold mbind, M_bind, bind, with_lock, modify, gets, set_buffer, set_lock,
    ret, _flush_buffer. cbn [write_lock write_buffer files].
  destruct lock; [discriminate|].
  destruct (Z.leb_spec BATCH_SIZE (Z.of_nat (length (deque_append buf
              (mk_row device user ts hr
                 (date_iso (dt_year dt) (dt_month dt) (dt_day dt)))))))
    as [Hge|Hlt]; [discriminate|].
  intros [= <-]. exists dt. repeat split. cbn [write_buffer].
  unfold BATCH_SIZE in Hlt. lia.
Qed.

(** X8. Every call that returns leaves fewer than [BATCH_SIZE] records
    in the buffer, when fewer were waiting before it: [ingest_metric]
    returns only below the threshold, [ingest_batch] flushes at the
    threshold, and a flush empties the buffer. *)
Theorem buffer_below_batch_size st st' :
  (length (write_buffer st) < 100)%nat ->
  (forall device user ts hr,
      ingest_metric device user ts hr st = Returns tt st' ->
      (length (write_buffer st') < 100)%nat)
  /\ (forall readings counts,
        ingest_batch readings st = Returns counts st' ->
        (length (write_buffer st') < 100)%nat)
  /\ (flush st = Returns tt st' -> (length (write_buffer st') < 100)%nat).
Proof.
  intros Hb. split; [|split].
  - intros device user ts hr Hr.
    now apply ingest_metric_returns in Hr as (dt & _ & _ & _ & Hlen).
  - intros readings counts Hr. unfold ingest_batch in Hr.
    rewrite scan_batch_spec in Hr. cbn [app] in Hr.
    destruct (flat_map record_of readings) as [|row records].
    + injection Hr as _ <-. exact Hb.
    + destruct st as [buf lock fs].
      unfold mbind, M_bind, bind, with_lock, modify, gets, set_buffer,
        set_lock, ret, _flush_buffer_unlocked in Hr.
      cbn [write_lock write_buffer files] in Hr.
      destruct lock; [discriminate|].
      destruct (Z.leb_spec BATCH_SIZE
                  (Z.of_nat (length (deque_extend buf (row :: records)))))
        as [Hge|Hlt].
      * destruct (deque_extend buf (row :: records));
          injection Hr as _ <-; simpl; lia.
      * injection Hr as _ <-. cbn [write_buffer].
        change (deque_extend (deque_append buf row) records)
          with (deque_extend buf (row :: records)).
        unfold BATCH_SIZE in Hlt. lia.
  - intros Hr. apply flush_returns in Hr as [_ ->]. simpl. lia.
Qed.

Lemma buffer_below_batch_size_witness :
  (length (write_buffer (init ∅)) < 100)%nat
  /\ ingest_batch batch201 (init ∅) = Returns (201, 0) st_later
  /\ (length (write_buffer st_later) < 100)%nat.
Proof.
  assert (Hb : (length (write_buffer (init ∅)) < 100)%nat) by (simpl; lia).
  assert (E : ingest_batch batch201 (init ∅) = Returns (201, 0) st_later)
    by (vm_compute; reflexivity).
  split; [exact Hb|]. split; [exact E|].
  exact (proj1 (proj2 (buffer_below_batch_size (init ∅) st_later Hb))
           batch201 (201, 0) E).
Defined.

(** X9. A batch with no well-formed entry touches nothing: whatever the
    state, and whoever holds the lock, [ingest_batch] returns zero
    accepted and all entries rejected, and the state is the one before
    the call. *)
Theorem ingest_batch_all_malformed st readings :
  (forall r, In r readings -> malformed r = true) ->
  ingest_batch readings st = Returns (0, Z.of_nat (length readings)) st.
Proof.
  intros Hall. unfold ingest_batch. rewrite scan_batch_spec. cbn [app].
  assert (E : flat_map record_of readings = []).
  { induction readings as [|r rest IH]; [reflexivity|]. cbn [flat_map].
    assert (Er : record_of r = [])
      by (apply record_of_malformed, Hall; now left).
    rewrite Er, IH by (intros r' Hr'; apply Hall; now right). reflexivity. }
  rewrite E.
  assert (Ew : List.filter (fun r => negb (malformed r)) readings = []).
  { induction readings as [|r rest IH]; [reflexivity|]. cbn [List.filter].
    rewrite (Hall r) by now left. cbn [negb].
    apply IH. intros r' Hr'. apply Hall. now right.
    clear -E. cbn [flat_map] in E. now apply app_eq_nil in E as [_ E]. }
  assert (Em : List.filter malformed readings = readings).
  { clear E Ew. induction readings as [|r rest IH]; [reflexivity|].
    cbn [List.filter]. rewrite (Hall r) by now left.
    f_equal. apply IH. intros r' Hr'. apply Hall. now right. }
  rewrite Ew, Em. reflexivity.
Qed.

Lemma ingest_batch_all_malformed_witness :
  (forall r, In r [no_user; bad_time] -> malformed r = true)
  /\ ingest_batch [no_user; bad_time] st_xy_busy
     = Returns (0, Z.of_nat (length [no_user; bad_time])) st_xy_busy.
Proof.
  assert (H : forall r, In r [no_user; bad_time] -> malformed r = true).
  { intros r [<-|[<-|[]]]; reflexivity. }
  split; [exact H|].
  apply (ingest_batch_all_malformed st_xy_busy [no_user; bad_time] H).
Defined.

(** ** More on the read path *)

Lemma files_from_overflow fs n current :
  current <= max_day < current + Z.of_nat n ->
  files_from fs n current = Err OverflowError.
Proof.
  revert current. induction n as [|n IH]; intros current Hr; [lia|].
  cbn [files_from]. destruct (Z.eqb_spec current max_day); [reflexivity|].
  rewrite IH by lia. reflexivity.
Qed.

Lemma files_from_ok fs n current :
  ~ (current <= max_day < current + Z.of_nat n) ->
  exists paths, files_from fs n current = Ok paths.
Proof.
  revert current. induction n as [|n IH]; intros current Hr;
    [now exists []|].
  cbn [files_from]. destruct (Z.eqb_spec current max_day); [lia|].
  destruct (IH (current + 1)) as [rest ->]; [lia|]. eauto.
Qed.

Lemma files_from_exist fs n current paths p :
  files_from fs n current = Ok paths -> In p paths -> is_Some (fs !! p).
Proof.
  revert current paths. induction n as [|n IH]; intros current paths.
  - simpl. intros [= <-] [].
  - cbn [files_from]. destruct (current =? max_day); [discriminate|].
    destruct (files_from fs n (current + 1)) as [rest|] eqn:E; [|discriminate].
    intros [= <-] Hp.
    destruct (fs !! file_path (day_iso current)) eqn:El;
      [|now apply (IH _ _ E)].
    destruct Hp as [<-|Hp]; [rewrite El; eauto|now apply (IH _ _ E)].
Qed.

Lemma files_from_complete fs n current paths i rows :
  files_from fs n current = Ok paths ->
  current <= i < current + Z.of_nat n ->
  fs !! file_path (day_iso i) = Some rows ->
  In (file_path (day_iso i)) paths.
Proof.
  revert current paths. induction n as [|n IH]; intros current paths;
    [lia|].
  cbn [files_from]. destruct (current =? max_day); [discriminate|].
  destruct (files_from fs n (current + 1)) as [rest|] eqn:E; [|discriminate].
  intros [= <-] Hi Hl.
  destruct (Z.eq_dec i current) as [->|Hne].
  - rewrite Hl. now left.
  - assert (Hin : In (file_path (day_iso i)) rest)
      by (apply (IH _ _ E); [lia|exact Hl]).
    destruct (fs !! file_path (day_iso current)); [now right|exact Hin].
Qed.

(** The rows scanned are those of the files of all days of the range. *)
Lemma files_from_scan fs n current paths :
  files_from fs n current = Ok paths ->
  scan_files fs paths =
  flat_map (fun k => default [] (fs !! file_path (day_iso (current + Z.of_nat k))))
    (seq 0 n).
Proof.
  revert current paths. induction n as [|n IH]; intros current paths.
  - simpl. now intros [= <-].
  - cbn [files_from]. destruct (current =? max_day); [discriminate|].
    destruct (files_from fs n (current + 1)) as [rest|] eqn:E; [|discriminate].
    intros [= <-]. cbn [seq flat_map]. rewrite <- seq_shift, flat_map_concat_map,
      map_map, <- flat_map_concat_map.
    rewrite Z.add_0_r.
    assert (Er : scan_files fs rest =
              flat_map (fun k => default []
                 (fs !! file_path (day_iso (current + Z.of_nat (S k)))))
                (seq 0 n)).
    { rewrite (IH _ _ E). apply flat_map_ext. intros k.
      do 4 f_equal. lia. }
    rewrite <- Er. unfold scan_files.
    destruct (fs !! file_path (day_iso current)) eqn:El; cbn [flat_map];
      [now rewrite El|reflexivity].
Qed.

Lemma filtered_rows_selected st user start end_ device filtered r :
  filtered_rows st user start end_ device = Ok filtered ->
  (In r filtered <-> selected st user start end_ device r).
Proof.
  unfold filtered_rows, selected, _get_files_in_range. intros Hf.
  destruct (fromisoformat (py_replace_Z start)) as [start_dt|]; [|discriminate].
  destruct (fromisoformat (py_replace_Z end_)) as [end_dt|]; [|discriminate].
  destruct (files_from (files st) _ (date_of start_dt)) as [paths|] eqn:E;
    [|discriminate].
  assert (Hfl : filtered = List.filter (keep_row user start end_ device)
                             (scan_files (files st) paths)).
  { destruct paths; now injection Hf as <-. }
  subst filtered. clear Hf. rewrite filter_In. unfold scan_files.
  rewrite in_flat_map. split.
  - intros [(p & Hp & Hr) Hk].
    destruct (files_from_days _ _ _ _ _ E Hp) as (i & Hi & ->).
    destruct (files st !! file_path (day_iso i)) as [rows|] eqn:El;
      [|destruct Hr].
    exists start_dt, end_dt, i, rows. repeat split; try assumption; lia.
  - intros (sd & ed & i & rows & [= <-] & [= <-] & Hi & Hl & Hr & Hk).
    split; [|exact Hk]. exists (file_path (day_iso i)). split.
    + apply (files_from_complete _ _ _ _ i rows E); [lia|exact Hl].
    + now rewrite Hl.
Qed.

Lemma query_metrics_filtered `{Sorter} st user start end_ device out :
  query_metrics st user start end_ device = Ok out ->
  exists filtered, filtered_rows st user start end_ device = Ok filtered.
Proof.
  unfold query_metrics.
  destruct (filtered_rows st user start end_ device); [eauto|discriminate].
Qed.

(** X10. Every bucket of an answer is made of one stored row that the
    query selects: a row in the partition file of a day between the
    start date and the end date, of the queried user, of the requested
    device when one is given, with its timestamp between the two bounds
    as strings. The bucket has that row's heart rate and device, and its
    timestamp is the row's minute. *)
Theorem query_metrics_sound `{Sorter} st user start end_ device out b :
  query_metrics st user start end_ device = Ok out ->
  In b out ->
  exists r t,
    selected st user start end_ device r
    /\ user_id r = user
    /\ String.leb start (timestamp r) = true
    /\ String.leb (timestamp r) end_ = true
    /\ bucket_of r = Some t
    /\ b = mk_bucket (inject_Z (heart_rate r)) (device_id r) (strftime t).
Proof.
  intros Hq Hb. destruct (query_metrics_filtered _ _ _ _ _ _ Hq) as [fl Hf].
  destruct (query_metrics_bucket _ _ _ _ _ _ _ b Hf Hq Hb)
    as (r & t & Hr & Ht & -> & _).
  exists r, t.
  pose proof (filtered_rows_keep _ _ _ _ _ _ _ Hf Hr) as Hk.
  split; [now apply (filtered_rows_selected _ _ _ _ _ _ r Hf)|].
  unfold keep_row in Hk. rewrite !andb_true_iff in Hk.
  destruct Hk as [[Hu _] [Hs He]]. apply String.eqb_eq in Hu.
  repeat split; assumption.
Qed.

Lemma query_metrics_sound_witness :
  query_metrics (H := stable_sorter) st_ab "u" "2024-01-15T10:00:00Z"
    "2024-01-15T10:01:00Z" None
  = Ok [mk_bucket (inject_Z 75) "device_a" "2024-01-15T10:00:00Z"]
  /\ exists r t,
       selected st_ab "u" "2024-01-15T10:00:00Z" "2024-01-15T10:01:00Z" None r
       /\ user_id r = "u"
       /\ String.leb "2024-01-15T10:00:00Z" (timestamp r) = true
       /\ String.leb (timestamp r) "2024-01-15T10:01:00Z" = true
       /\ bucket_of r = Some t
       /\ mk_bucket (inject_Z 75) "device_a" "2024-01-15T10:00:00Z"
          = mk_bucket (inject_Z (heart_rate r)) (device_id r) (strftime t).
Proof.
  split; [vm_compute; reflexivity|].
  apply (query_metrics_sound (H := stable_sorter) st_ab "u"
           "2024-01-15T10:00:00Z" "2024-01-15T10:01:00Z" None
           [mk_bucket (inject_Z 75) "device_a" "2024-01-15T10:00:00Z"]);
    [vm_compute; reflexivity|now left].
Defined.

(** X11. No selected minute is left out: when the query returns, every
    stored row it selects has the bucket of its minute in the answer. *)
Theorem query_metrics_complete `{Sorter} st user start end_ device out r :
  query_metrics st user start end_ device = Ok out ->
  selected st user start end_ device r ->
  exists t b, bucket_of r = Some t /\ In b out /\ b_timestamp b = strftime t.
Proof.
  intros Hq Hs. destruct (query_metrics_filtered _ _ _ _ _ _ Hq) as [fl Hf].
  apply (filtered_rows_selected _ _ _ _ _ _ r Hf) in Hs.
  exact (query_metrics_covers _ _ _ _ _ _ _ r Hf Hq Hs).
Qed.

Lemma query_metrics_complete_witness :
  query_metrics (H := stable_sorter) st_ab "u" "2024-01-15T10:00:00Z"
    "2024-01-15T10:01:00Z" None
  = Ok [mk_bucket (inject_Z 75) "device_a" "2024-01-15T10:00:00Z"]
  /\ selected st_ab "u" "2024-01-15T10:00:00Z" "2024-01-15T10:01:00Z" None b80
  /\ exists t b,
       bucket_of b80 = Some t
       /\ In b [mk_bucket (inject_Z 75) "device_a" "2024-01-15T10:00:00Z"]
       /\ b_timestamp b = strftime t.
Proof.
  assert (Hs : selected st_ab "u" "2024-01-15T10:00:00Z"
                 "2024-01-15T10:01:00Z" None b80).
  { exists (mk_datetime 2024 1 15 10 0 0 (Some 0)),
      (mk_datetime 2024 1 15 10 1 0 (Some 0)), 19737, [b80; a75].
    split; [vm_compute; reflexivity|]. split; [vm_compute; reflexivity|].
    split; [vm_compute; split; discriminate|].
    split; [vm_compute; reflexivity|].
    split; [now left|vm_compute; reflexivity]. }
  split; [vm_compute; reflexivity|]. split; [exact Hs|].
  apply (query_metrics_complete (H := stable_sorter) st_ab "u"
           "2024-01-15T10:00:00Z" "2024-01-15T10:01:00Z" None
           [mk_bucket (inject_Z 75) "device_a" "2024-01-15T10:00:00Z"] b80);
    [vm_compute; reflexivity|exact Hs].
Defined.

(** ** The order the sort leaves among equal keys *)










(** ** The ends of the date range *)

(** X12. A query whose range reaches 9999-12-31 raises: the loop over
    the days steps past the last date Python has, whatever is stored. *)
Theorem query_metrics_overflow `{Sorter} st user start end_ device
    start_dt end_dt :
  fromisoformat (py_replace_Z start) = Some start_dt ->
  fromisoformat (py_replace_Z end_) = Some end_dt ->
  date_of start_dt <= date_of end_dt ->
  (dt_year end_dt, dt_month end_dt, dt_day end_dt) = (9999, 12, 31) ->
  query_metrics st user start end_ device = Err OverflowError.
Proof.
  intros Hs He Hle Hmax.
  assert (Hd : date_of end_dt = max_day)
    by (unfold date_of; injection Hmax as -> -> ->; reflexivity).
  unfold query_metrics, filtered_rows, _get_files_in_range.
  rewrite Hs, He, files_from_overflow; [reflexivity|lia].
Qed.

Lemma query_metrics_overflow_witness :
  query_metrics (H := stable_sorter) st_ab "u" "9999-12-30T00:00:00Z"
    "9999-12-31T00:00:00Z" None
  = Err OverflowError.
Proof.
  apply (query_metrics_overflow (H := stable_sorter) st_ab "u"
           "9999-12-30T00:00:00Z" "9999-12-31T00:00:00Z" None
           (mk_datetime 9999 12 30 0 0 0 (Some 0))
           (mk_datetime 9999 12 31 0 0 0 (Some 0)));
    [vm_compute; reflexivity|vm_compute; reflexivity
    |vm_compute; discriminate|reflexivity].
Defined.

Lemma files_from_none fs n current :
  ~ (current <= max_day < current + Z.of_nat n) ->
  (forall i, current <= i < current + Z.of_nat n ->
     fs !! file_path (day_iso i) = None) ->
  files_from fs n current = Ok [].
Proof.
  revert current. induction n as [|n IH]; intros current Hr Hn;
    [reflexivity|].
  cbn [files_from]. destruct (Z.eqb_spec current max_day); [lia|].
  rewrite IH; [|lia|intros i Hi; apply Hn; lia].
  now rewrite Hn by lia.
Qed.

(** X13. When the days from the start date to the end date do not
    include 9999-12-31 (there the loop over the days raises) and none of
    them has a partition file, the answer is empty; so it is whenever
    the end date is before the start date, whatever is stored. Buffered
    readings are not looked at. *)
Theorem query_metrics_no_file `{Sorter} st user start end_ device
    start_dt end_dt :
  fromisoformat (py_replace_Z start) = Some start_dt ->
  fromisoformat (py_replace_Z end_) = Some end_dt ->
  ~ (date_of start_dt <= max_day <= date_of end_dt) ->
  (forall i, date_of start_dt <= i <= date_of end_dt ->
     files st !! file_path (day_iso i) = None) ->
  query_metrics st user start end_ device = Ok [].
Proof.
  intros Hs He Hmax Hn.
  unfold query_metrics, filtered_rows, _get_files_in_range.
  rewrite Hs, He, files_from_none; [reflexivity|lia|].
  intros i Hi. apply Hn. lia.
Qed.

Lemma query_metrics_no_file_witness :
  query_metrics (H := stable_sorter) (mk_state [a70] false ∅) "u"
    "2024-01-15T10:00:00Z" "2024-01-16T10:00:00Z" None
  = Ok []
  /\ query_metrics (H := stable_sorter) st_ab "u"
       "2024-01-16T10:00:00Z" "2024-01-14T10:00:00Z" None
     = Ok [].
Proof.
  split.
  - apply (query_metrics_no_file (H := stable_sorter)
             (mk_state [a70] false ∅) "u"
             "2024-01-15T10:00:00Z" "2024-01-16T10:00:00Z" None
             (mk_datetime 2024 1 15 10 0 0 (Some 0))
             (mk_datetime 2024 1 16 10 0 0 (Some 0)));
      [vm_compute; reflexivity|vm_compute; reflexivity| |].
    + intros [_ Hc]. vm_compute in Hc. now apply Hc.
    + intros i _. apply lookup_empty.
  - apply (query_metrics_no_file (H := stable_sorter) st_ab "u"
             "2024-01-16T10:00:00Z" "2024-01-14T10:00:00Z" None
             (mk_datetime 2024 1 16 10 0 0 (Some 0))
             (mk_datetime 2024 1 14 10 0 0 (Some 0)));
      [vm_compute; reflexivity|vm_compute; reflexivity| |].
    + intros [_ Hc]. vm_compute in Hc. now apply Hc.
    + intros i Hi. exfalso. revert Hi. change (19738 <= i <= 19736 -> False). lia.
Defined.

(** ** What the filters let through *)

(** X14. With a device given, every bucket of the answer reports that
    device. *)
Theorem query_metrics_device `{Sorter} st user start end_ d out b :
  d <> "" ->
  query_metrics st user start end_ (Some d) = Ok out ->
  In b out ->
  b_device_id b = d.
Proof.
  intros Hd Hq Hb. destruct (query_metrics_filtered _ _ _ _ _ _ Hq) as [fl Hf].
  destruct (query_metrics_bucket _ _ _ _ _ _ _ b Hf Hq Hb)
    as (r & t & Hr & _ & -> & _).
  pose proof (filtered_rows_keep _ _ _ _ _ _ _ Hf Hr) as Hk.
  unfold keep_row in Hk. rewrite !andb_true_iff in Hk.
  destruct Hk as [[_ Hk] _]. destruct d as [|c d]; [congruence|].
  now apply String.eqb_eq in Hk.
Qed.

Lemma query_metrics_device_witness :
  query_metrics (H := stable_sorter) st_ab "u" "2024-01-15T10:00:00Z"
    "2024-01-15T10:01:00Z" (Some "device_b")
  = Ok [mk_bucket (inject_Z 80) "device_b" "2024-01-15T10:00:00Z"]
  /\ b_device_id (mk_bucket (inject_Z 80) "device_b" "2024-01-15T10:00:00Z")
     = "device_b".
Proof.
  split; [vm_compute; reflexivity|].
  apply (query_metrics_device (H := stable_sorter) st_ab "u"
           "2024-01-15T10:00:00Z" "2024-01-15T10:01:00Z" "device_b"
           [mk_bucket (inject_Z 80) "device_b" "2024-01-15T10:00:00Z"]);
    [discriminate|vm_compute; reflexivity|now left].
Defined.

(** X15. When the start bound is after the end bound as strings, no
    reading is returned, whatever instants the two bounds denote: the
    time filter compares the strings. *)
Theorem query_metrics_bounds_as_strings `{Sorter} st user start end_ device
    out :
  String.leb start end_ = false ->
  query_metrics st user start end_ device = Ok out ->
  out = [].
Proof.
  intros Hle Hq. destruct out as [|b out]; [reflexivity|exfalso].
  destruct (query_metrics_filtered _ _ _ _ _ _ Hq) as [fl Hf].
  destruct (query_metrics_bucket _ _ _ _ _ _ _ b Hf Hq (or_introl eq_refl))
    as (r & _ & Hr & _).
  pose proof (filtered_rows_keep _ _ _ _ _ _ _ Hf Hr) as Hk.
  unfold keep_row in Hk. rewrite !andb_true_iff in Hk.
  destruct Hk as [_ [Hs He]].
  rewrite (string_leb_trans _ _ _ Hs He) in Hle. discriminate.
Qed.

Lemma query_metrics_bounds_as_strings_witness :
  (strptime "2024-01-15T12:00:00+05:00" = Some 1705302000
   /\ strptime "2024-01-15T11:00:00+00:00" = Some 1705316400)
  /\ query_metrics (H := stable_sorter) st_ab "u" "2024-01-15T12:00:00+05:00"
       "2024-01-15T11:00:00+00:00" None
     = Ok [].
Proof.
  split; [split; vm_compute; reflexivity|].
  assert (Hq : exists out,
             query_metrics (H := stable_sorter) st_ab "u"
               "2024-01-15T12:00:00+05:00" "2024-01-15T11:00:00+00:00" None
             = Ok out)
    by (eexists; vm_compute; reflexivity).
  destruct Hq as [out Hq]. rewrite Hq. f_equal.
  apply (query_metrics_bounds_as_strings (H := stable_sorter) st_ab "u"
           "2024-01-15T12:00:00+05:00" "2024-01-15T11:00:00+00:00" None out);
    [vm_compute; reflexivity|exact Hq].
Defined.

Lemma filter_flat_map {A B : Type} (p : B -> bool) (f : A -> list B) l :
  List.filter p (flat_map f l) = flat_map (fun x => List.filter p (f x)) l.
Proof.
  induction l as [|x l IH]; [reflexivity|].
  cbn [flat_map]. now rewrite List.filter_app, IH.
Qed.

Lemma filter_filter_user user start end_ device rows :
  List.filter (keep_row user start end_ device) rows
  = List.filter (keep_row user start end_ device)
      (List.filter (fun r => String.eqb (user_id r) user) rows).
Proof.
  induction rows as [|r rows IH]; [reflexivity|]. cbn [List.filter].
  destruct (String.eqb (user_id r) user) eqn:Eu.
  - cbn [List.filter]. now rewrite IH.
  - unfold keep_row at 1. rewrite Eu. exact IH.
Qed.

Lemma files_from_result fs fs' n current :
  match files_from fs n current, files_from fs' n current with
  | Ok _, Ok _ => True
  | Err e, Err e' => e = e'
  | _, _ => False
  end.
Proof.
  destruct (Z_le_dec current max_day) as [H1|H1];
    [destruct (Z_lt_dec max_day (current + Z.of_nat n)) as [H2|H2]|].
  - now rewrite !files_from_overflow by lia.
  - destruct (files_from_ok fs n current) as [p ->]; [lia|].
    now destruct (files_from_ok fs' n current) as [p' ->]; [lia|].
  - destruct (files_from_ok fs n current) as [p ->]; [lia|].
    now destruct (files_from_ok fs' n current) as [p' ->]; [lia|].
Qed.

Lemma filtered_rows_scan st user start end_ device start_dt end_dt paths :
  fromisoformat (py_replace_Z start) = Some start_dt ->
  fromisoformat (py_replace_Z end_) = Some end_dt ->
  _get_files_in_range (files st) start_dt end_dt = Ok paths ->
  filtered_rows st user start end_ device
  = Ok (List.filter (keep_row user start end_ device)
          (scan_files (files st) paths)).
Proof.
  unfold filtered_rows. intros -> -> ->. now destruct paths.
Qed.

(** X16. The answer for a user depends on the stored rows of that user
    alone: two stores whose files agree on the rows of the user give the
    same answer, whatever rows of other users they hold and whichever
    files exist. *)
Theorem query_metrics_user_isolation `{Sorter} st st' user start end_ device :
  (forall p,
     List.filter (fun r => String.eqb (user_id r) user)
       (default [] (files st !! p))
     = List.filter (fun r => String.eqb (user_id r) user)
         (default [] (files st' !! p))) ->
  query_metrics st user start end_ device
  = query_metrics st' user start end_ device.
Proof.
  intros Hu. unfold query_metrics.
  assert (E : filtered_rows st user start end_ device
              = filtered_rows st' user start end_ device);
    [|now rewrite E].
  destruct (fromisoformat (py_replace_Z start)) as [start_dt|] eqn:Es;
    [|unfold filtered_rows; now rewrite Es].
  destruct (fromisoformat (py_replace_Z end_)) as [end_dt|] eqn:Ee;
    [|unfold filtered_rows; now rewrite Es, Ee].
  pose proof (files_from_result (files st) (files st')
                (Z.to_nat (date_of end_dt - date_of start_dt + 1))
                (date_of start_dt)) as Hr.
  destruct (files_from (files st) _ _) as [paths|e] eqn:E1;
    destruct (files_from (files st') _ _) as [paths'|e'] eqn:E2;
    try contradiction.
  - rewrite (filtered_rows_scan _ _ _ _ _ _ _ _ Es Ee E1),
      (filtered_rows_scan _ _ _ _ _ _ _ _ Es Ee E2).
    rewrite (files_from_scan _ _ _ _ E1), (files_from_scan _ _ _ _ E2).
    rewrite !filter_flat_map. f_equal. apply flat_map_ext. intros k.
    rewrite filter_filter_user, Hu, <- filter_filter_user. reflexivity.
  - subst e'. unfold filtered_rows, _get_files_in_range.
    now rewrite Es, Ee, E1, E2.
Qed.

Lemma query_metrics_user_isolation_witness :
  query_metrics (H := stable_sorter) st_ab "v" "2024-01-15T10:00:00Z"
    "2024-01-15T10:01:00Z" None
  = query_metrics (H := stable_sorter) (init ∅) "v" "2024-01-15T10:00:00Z"
      "2024-01-15T10:01:00Z" None.
Proof.
  apply (query_metrics_user_isolation (H := stable_sorter) st_ab (init ∅) "v").
  intros p. cbn [files init st_ab]. rewrite lookup_empty.
  destruct (decide (p = path)) as [->|Hne].
  - rewrite lookup_insert_eq. reflexivity.
  - rewrite lookup_insert_ne by congruence. now rewrite lookup_empty.
Defined.

(** ** A stored timestamp the query cannot read *)

Lemma with_minute_bucket_fails rows r :
  In r rows -> bucket_of r = None ->
  with_minute_bucket rows = Err ComputeError.
Proof.
  unfold bucket_of. intros Hin Hb. apply fmap_None in Hb.
  induction rows as [|r0 rows IH]; [destruct Hin|]. cbn [with_minute_bucket].
  destruct (strptime (pl_replace_Z (timestamp r0))) as [t|] eqn:E;
    [|reflexivity].
  destruct Hin as [->|Hin]; [congruence|]. now rewrite IH.
Qed.

(** X17. One stored reading whose timestamp polars cannot parse with
    the format of the query (a timestamp without an offset, which
    [fromisoformat] accepts at ingestion) makes every query that selects
    it raise: no bucket is returned, also for the other minutes. *)
Theorem query_metrics_unreadable_row `{Sorter} st user start end_ device r :
  selected st user start end_ device r ->
  bucket_of r = None ->
  exists e,
    query_metrics st user start end_ device = Err e
    /\ (e = ComputeError \/ e = OverflowError).
Proof.
  intros Hs Hb. unfold query_metrics.
  destruct (filtered_rows st user start end_ device) as [fl|e] eqn:Hf.
  - apply (filtered_rows_selected _ _ _ _ _ _ r Hf) in Hs.
    rewrite (with_minute_bucket_fails _ _ Hs Hb).
    destruct fl; [destruct Hs|]. eauto.
  - exists e. split; [reflexivity|]. right.
    destruct Hs as (sd & ed & _ & _ & Es & Ee & _).
    unfold filtered_rows, _get_files_in_range in Hf. rewrite Es, Ee in Hf.
    pose proof (files_from_result (files st) (files st)
                  (Z.to_nat (date_of ed - date_of sd + 1)) (date_of sd)) as Hr.
    destruct (Z_le_dec (date_of sd) max_day) as [H1|H1];
      [destruct (Z_lt_dec max_day
                   (date_of sd + Z.of_nat (Z.to_nat (date_of ed - date_of sd + 1))))
         as [H2|H2]|].
    + rewrite files_from_overflow in Hf by lia. congruence.
    + destruct (files_from_ok (files st)
                  (Z.to_nat (date_of ed - date_of sd + 1)) (date_of sd))
        as [p Ep]; [lia|]. rewrite Ep in Hf. now destruct p.
    + destruct (files_from_ok (files st)
                  (Z.to_nat (date_of ed - date_of sd + 1)) (date_of sd))
        as [p Ep]; [lia|]. rewrite Ep in Hf. now destruct p.
Qed.

Lemma query_metrics_unreadable_row_witness :
  let naive := mk_row "device_a" "u" "2024-01-15T10:05:00" 64 day in
  let st := init (<[path := [a70; naive]]> ∅) in
  to_record (mk_reading (Some "device_a") (Some "u")
               (Some "2024-01-15T10:05:00") (Some 64)) = Ok naive
  /\ selected st "u" "2024-01-15T10:00:00Z" "2024-01-15T10:59:59Z" None naive
  /\ bucket_of naive = None
  /\ exists e,
       query_metrics (H := stable_sorter) st "u" "2024-01-15T10:00:00Z"
         "2024-01-15T10:59:59Z" None = Err e
       /\ (e = ComputeError \/ e = OverflowError).
Proof.
  intros naive st.
  assert (Hs : selected st "u" "2024-01-15T10:00:00Z" "2024-01-15T10:59:59Z"
                 None naive).
  { exists (mk_datetime 2024 1 15 10 0 0 (Some 0)),
      (mk_datetime 2024 1 15 10 59 59 (Some 0)), 19737, [a70; naive].
    split; [vm_compute; reflexivity|]. split; [vm_compute; reflexivity|].
    split; [vm_compute; split; discriminate|].
    split; [vm_compute; reflexivity|].
    split; [now right; left|vm_compute; reflexivity]. }
  split; [vm_compute; reflexivity|]. split; [exact Hs|].
  split; [vm_compute; reflexivity|].
  apply (query_metrics_unreadable_row (H := stable_sorter) st "u"
           "2024-01-15T10:00:00Z" "2024-01-15T10:59:59Z" None naive Hs).
  vm_compute; reflexivity.
Defined.

(** ** From ingestion to the answer *)

Lemma fromisoformat_year s dt :
  fromisoformat s = Some dt ->
  1 <= dt_year dt <= 9999
  /\ valid_date (dt_year dt) (dt_month dt) (dt_day dt) = true.
Proof.
  unfold fromisoformat. intros Hf.
  apply bind_Some in Hf as ([[[y m] d] rest] & Ep & Hf).
  apply parse_date_spec in Ep as (_ & Hv & Hy).
  destruct (Z.ltb_spec y 1); [discriminate|].
  assert (Hdt : dt_year dt = y /\ dt_month dt = m /\ dt_day dt = d).
  { destruct rest as [|c rest0]; [now injection Hf as <-|].
    apply bind_Some in Hf as (s1 & _ & Hf).
    apply bind_Some in Hf as ([[[h mi] sec] s2] & _ & Hf).
    destruct s2 as [|c2 s2']; [now injection Hf as <-|].
    apply bind_Some in Hf as ([off s3] & _ & Hf).
    destruct s3; [now injection Hf as <-|discriminate]. }
  destruct Hdt as (-> & -> & ->). split; [lia|exact Hv].
Qed.

Lemma days_from_civil_after y m d :
  1 <= m <= 12 -> 1 <= d <= 31 -> 10000 <= y ->
  max_day < days_from_civil y m d.
Proof.
  intros Hm Hd Hy. unfold days_from_civil, max_day.
  destruct (Z.leb_spec m 2); Z.div_mod_to_equations; lia.
Qed.

Lemma days_from_civil_before y m d :
  1 <= m <= 12 -> 1 <= d <= 31 -> y <= 0 ->
  days_from_civil y m d < -719162.
Proof.
  intros Hm Hd Hy. unfold days_from_civil.
  destruct (Z.leb_spec m 2); Z.div_mod_to_equations; lia.
Qed.

Lemma days_from_civil_within y m d :
  1 <= m <= 12 -> 1 <= d <= 31 -> 1 <= y <= 9999 ->
  -719162 <= days_from_civil y m d <= max_day.
Proof.
  intros Hm Hd Hy. unfold days_from_civil, max_day.
  destruct (Z.leb_spec m 2); Z.div_mod_to_equations; lia.
Qed.

Lemma date_iso_inj y m d y' m' d' :
  0 <= y <= 9999 -> 0 <= m < 100 -> 0 <= d < 100 ->
  0 <= y' <= 9999 -> 0 <= m' < 100 -> 0 <= d' < 100 ->
  date_iso y m d = date_iso y' m' d' -> (y, m, d) = (y', m', d').
Proof.
  unfold date_iso. intros Hy Hm Hd Hy' Hm' Hd' E.
  apply append_inj_prefix in E as [Ey E]; [|now rewrite !digits_length].
  apply digits_inj in Ey; [|simpl; lia..].
  rewrite !append_cons, !append_nil_l in E. apply string_cons_inj in E.
  apply digits2_inj in E as [Em E]; [|lia..].
  apply string_cons_inj in E.
  apply digits_inj in E; [|simpl; lia..]. congruence.
Qed.

(** Between 0001-01-01 and 9999-12-31 a day is known by its printed
    date. *)
Lemma day_iso_inj i j :
  -719162 <= i <= max_day -> -719162 <= j <= max_day ->
  day_iso i = day_iso j -> i = j.
Proof.
  assert (Hyear : forall k y m d,
             -719162 <= k <= max_day -> civil_from_days k = (y, m, d) ->
             1 <= y <= 9999 /\ 1 <= m <= 12 /\ 1 <= d <= 31).
  { intros k y m d Hk E.
    destruct (civil_from_days_range _ _ _ _ E) as [Hm Hd].
    apply days_from_civil_from_days in E.
    destruct (Z_le_dec y 0) as [H0|H0];
      [pose proof (days_from_civil_before y m d Hm Hd H0); lia|].
    destruct (Z_le_dec 10000 y) as [H1|H1];
      [pose proof (days_from_civil_after y m d Hm Hd H1); lia|].
    lia. }
  intros Hi Hj. unfold day_iso.
  destruct (civil_from_days i) as [[y m] d] eqn:Ei.
  destruct (civil_from_days j) as [[y' m'] d'] eqn:Ej.
  destruct (Hyear _ _ _ _ Hi Ei) as (? & ? & ?).
  destruct (Hyear _ _ _ _ Hj Ej) as (? & ? & ?).
  intros E. apply date_iso_inj in E; [|lia..].
  apply civil_from_days_inj. congruence.
Qed.

Lemma flat_map_all_nil {A B : Type} (f : A -> list B) l :
  (forall x, In x l -> f x = []) -> flat_map f l = [].
Proof.
  induction l as [|x l IH]; intros Hf; [reflexivity|].
  cbn [flat_map]. rewrite (Hf x) by now left.
  apply IH. intros y Hy. apply Hf. now right.
Qed.

Lemma flat_map_only {B : Type} (f : nat -> list B) n s k0 :
  (s <= k0 < s + n)%nat ->
  (forall k, (s <= k < s + n)%nat -> k <> k0 -> f k = []) ->
  flat_map f (seq s n) = f k0.
Proof.
  revert s. induction n as [|n IH]; intros s Hk Hf; [lia|].
  cbn [seq flat_map]. destruct (Nat.eq_dec s k0) as [->|Hne].
  - assert (E : flat_map f (seq (S k0) n) = []); [|now rewrite E, app_nil_r].
    clear IH. apply flat_map_all_nil. intros k Hin. apply in_seq in Hin.
    apply Hf; lia.
  - rewrite (Hf s) by lia. apply IH; [lia|]. intros k Hk'. apply Hf. lia.
Qed.

Lemma sort_by_single `{Sorter} {A : Type} (leb : A -> A -> bool) (x : A) :
  sort_by leb [x] = [x].
Proof.
  apply Permutation_length_1_inv, Permutation_sym, sort_by_perm.
Qed.

Lemma keep_row_own device user ts hr d start end_ dq :
  String.leb start ts = true -> String.leb ts end_ = true ->
  dq = None \/ dq = Some device ->
  keep_row user start end_ dq (mk_row device user ts hr d) = true.
Proof.
  intros Hs He Hdq. unfold keep_row. cbn [user_id device_id timestamp].
  rewrite String.eqb_refl, Hs, He.
  destruct Hdq as [->| ->]; [reflexivity|].
  destruct device; [reflexivity|now rewrite String.eqb_refl].
Qed.

Lemma query_metrics_single `{Sorter} st user start end_ dq r t :
  filtered_rows st user start end_ dq = Ok [r] ->
  strptime (pl_replace_Z (timestamp r)) = Some t ->
  query_metrics st user start end_ dq
  = Ok [mk_bucket (inject_Z (heart_rate r)) (device_id r)
          (strftime (truncate_1m t))].
Proof.
  intros Hf Ht. unfold query_metrics. rewrite Hf.
  cbn [with_minute_bucket]. rewrite Ht.
  unfold aggregated, firsts. rewrite sort_by_single.
  cbn [group_by fold_left insert_group first_of_groups flat_map map fst snd
       aggregate minute_bucket row app].
  now rewrite sort_by_single, round2_mean_single.
Qed.

(** X18. A reading given to [ingest_metric] on an empty store and then
    flushed is answered by a query for its user: when the dates of the
    two bounds enclose the date written in the timestamp, the bounds
    enclose the timestamp as strings, and the timestamp has the form
    the query parses, the answer is the single bucket of the reading's
    minute with its heart rate and its device. The file the flush wrote
    is the one the query looks for. Stated for the years from 1000 on,
    which [strftime("%Y")] prints with four digits on every platform. *)
Theorem ingest_flush_query `{Sorter} device user ts hr start end_ dq
    dt t start_dt end_dt :
  fromisoformat (py_replace_Z ts) = Some dt ->
  1000 <= dt_year dt ->
  strptime (pl_replace_Z ts) = Some t ->
  fromisoformat (py_replace_Z start) = Some start_dt ->
  fromisoformat (py_replace_Z end_) = Some end_dt ->
  date_of start_dt <= date_of dt <= date_of end_dt ->
  date_of end_dt < max_day ->
  String.leb start ts = true -> String.leb ts end_ = true ->
  dq = None \/ dq = Some device ->
  exists st1 st2,
    ingest_metric device user ts hr (init ∅) = Returns tt st1
    /\ flush st1 = Returns tt st2
    /\ files st2
       = <[file_path (date_iso (dt_year dt) (dt_month dt) (dt_day dt)) :=
             [mk_row device user ts hr
                (date_iso (dt_year dt) (dt_month dt) (dt_day dt))]]> ∅
    /\ query_metrics st2 user start end_ dq
       = Ok [mk_bucket (inject_Z hr) device (strftime (truncate_1m t))].
Proof.
  intros Hdt _ Ht Es Ee Hin Hmax Hs He Hdq.
  set (D := date_iso (dt_year dt) (dt_month dt) (dt_day dt)).
  set (r := mk_row device user ts hr D).
  exists (mk_state [r] false ∅),
    (mk_state [] false (<[file_path D := [r]]> ∅)).
  split; [unfold ingest_metric; rewrite Hdt; reflexivity|].
  split; [reflexivity|]. split; [reflexivity|].
  apply (query_metrics_single _ _ _ _ _ r t); [|exact Ht].
  destruct (fromisoformat_year _ _ Hdt) as [Hy Hv].
  destruct (fromisoformat_year _ _ Es) as [Hys Hvs].
  apply valid_date_inv in Hvs as (Hms & Hds & _).
  pose proof (days_from_civil_within _ _ _ Hms Hds Hys) as Hlo.
  fold (date_of start_dt) in Hlo.
  assert (HD : day_iso (date_of dt) = D)
    by (unfold day_iso, date_of; now rewrite civil_from_days_from_civil).
  destruct (files_from_ok (<[file_path D := [r]]> ∅)
              (Z.to_nat (date_of end_dt - date_of start_dt + 1))
              (date_of start_dt)) as [paths E]; [lia|].
  rewrite (filtered_rows_scan (mk_state [] false (<[file_path D := [r]]> ∅))
             _ _ _ _ _ _ paths Es Ee E).
  cbn [files]. rewrite (files_from_scan _ _ _ _ E).
  rewrite (flat_map_only _ _ 0 (Z.to_nat (date_of dt - date_of start_dt)));
    [|lia|].
  - replace (date_of start_dt
             + Z.of_nat (Z.to_nat (date_of dt - date_of start_dt)))
      with (date_of dt) by lia.
    rewrite HD, lookup_insert_eq.
    pose proof (keep_row_own device user ts hr D start end_ dq Hs He Hdq)
      as Hk.
    fold r in Hk. cbn [from_option id List.filter]. now rewrite Hk.
  - intros k Hk Hne. rewrite lookup_insert_ne; [now rewrite lookup_empty|].
    intros Hp. apply file_path_inj in Hp. rewrite <- HD in Hp.
    apply day_iso_inj in Hp; lia.
Qed.

Lemma ingest_flush_query_witness :
  exists st1 st2,
    ingest_metric "device_b" "u" "2024-02-29T23:59:30Z" 88 (init ∅)
    = Returns tt st1
    /\ flush st1 = Returns tt st2
    /\ files st2
       = <[file_path (date_iso 2024 2 29) :=
             [mk_row "device_b" "u" "2024-02-29T23:59:30Z" 88
                (date_iso 2024 2 29)]]> ∅
    /\ query_metrics (H := stable_sorter) st2 "u" "2024-02-28T00:00:00Z"
         "2024-03-01T00:00:00Z" None
       = Ok [mk_bucket (inject_Z 88) "device_b"
               (strftime (truncate_1m 1709251170))].
Proof.
  apply (ingest_flush_query (H := stable_sorter) "device_b" "u"
           "2024-02-29T23:59:30Z" 88 "2024-02-28T00:00:00Z"
           "2024-03-01T00:00:00Z" None
           (mk_datetime 2024 2 29 23 59 30 (Some 0)) 1709251170
           (mk_datetime 2024 2 28 0 0 0 (Some 0))
           (mk_datetime 2024 3 1 0 0 0 (Some 0)));
    [vm_compute; reflexivity|vm_compute; discriminate|vm_compute; reflexivity
    |vm_compute; reflexivity|vm_compute; reflexivity
    |vm_compute; split; discriminate
    |vm_compute; reflexivity|vm_compute; reflexivity|vm_compute; reflexivity
    |now left].
Defined.


(** ** The endpoints *)

Lemma valid_request_parses m :
  valid_request m = true ->
  exists dt, fromisoformat (py_replace_Z (rq_timestamp m)) = Some dt.
Proof.
  unfold valid_request, validate_timestamp.
  destruct (validate_heart_rate (rq_heart_rate m)); [|discriminate].
  destruct (fromisoformat (py_replace_Z (rq_timestamp m))) as [dt|];
    [eauto|discriminate].
Qed.

Lemma valid_request_well_formed m :
  valid_request m = true -> malformed (reading_data m) = false.
Proof.
  intros Hv. destruct (valid_request_parses m Hv) as [dt E].
  unfold malformed, reading_data.
  cbn [rd_device_id rd_user_id rd_timestamp rd_heart_rate]. now rewrite E.
Qed.

Lemma valid_batch_counts batch :
  forallb valid_request batch = true ->
  List.filter malformed (map reading_data batch) = []
  /\ length (List.filter (fun r => negb (malformed r)) (map reading_data batch))
     = length batch
  /\ length (flat_map record_of (map reading_data batch)) = length batch.
Proof.
  induction batch as [|m batch IH]; [now repeat split|].
  cbn [forallb]. rewrite andb_true_iff. intros [Hm Hb].
  destruct (IH Hb) as (E1 & E2 & E3).
  pose proof (valid_request_well_formed m Hm) as Hw.
  assert (Hr : length (record_of (reading_data m)) = 1%nat).
  { destruct (valid_request_parses m Hm) as [dt E].
    unfold record_of, reading_data.
    cbn [rd_device_id rd_user_id rd_timestamp rd_heart_rate].
    now rewrite E. }
  cbn [map List.filter flat_map]. rewrite Hw. cbn [negb length].
  rewrite length_app, Hr, E1, E2, E3. repeat split.
Qed.

(** X19. The batch endpoint rejects nothing: for every body that passes
    the validation of the request model, the response counts all the
    readings as accepted and none as rejected, and the handler runs
    [ingest_batch] on as many records as there are readings; with the
    lock held by another task it waits. The [rejected] count of the
    response is always 0. *)
Theorem batch_endpoint_accepts_all batch st :
  valid_batch batch = true ->
  length (flat_map record_of (map reading_data batch)) = length batch
  /\ ingest_heart_rate_batch batch st
     = if write_lock st then (Hangs, st)
       else (Responds
               (mk_batch_status "accepted" (Z.of_nat (length batch)) 0
                  (Z.of_nat (length batch))),
             buffered (flat_map record_of (map reading_data batch)) st).
Proof.
  unfold valid_batch, validate_readings. rewrite andb_true_iff.
  intros [Hall Hsize].
  destruct (valid_batch_counts batch Hall) as (E1 & E2 & E3).
  split; [exact E3|].
  assert (Hne : batch <> []).
  { intros ->. cbn in Hsize. discriminate. }
  unfold ingest_heart_rate_batch.
  destruct (write_lock st) eqn:Hl.
  - unfold ingest_batch. rewrite scan_batch_spec. cbn [app].
    destruct (flat_map record_of (map reading_data batch)) as [|row records];
      [destruct batch; [congruence|discriminate]|].
    unfold mbind, M_bind, bind, with_lock. now rewrite Hl.
  - rewrite (ingest_batch_free st _ Hl), E1, E2. cbn [length].
    destruct (flat_map record_of (map reading_data batch)) as [|row records];
      [destruct batch; [congruence|discriminate]|].
    reflexivity.
Qed.

Lemma batch_endpoint_accepts_all_witness :
  let batch := [mk_request "device_a" "u" "2024-01-15T10:00:00Z" 70;
                mk_request "device_b" "u" "2024-01-15T10:00:30Z" 71] in
  valid_batch batch = true
  /\ ingest_heart_rate_batch batch (init ∅)
     = (Responds (mk_batch_status "accepted" 2 0 2),
        buffered (flat_map record_of (map reading_data batch)) (init ∅))
  /\ ingest_heart_rate_batch batch st_xy_busy = (Hangs, st_xy_busy).
Proof.
  intros batch.
  assert (Hv : valid_batch batch = true) by (vm_compute; reflexivity).
  split; [exact Hv|]. split.
  - exact (proj2 (batch_endpoint_accepts_all batch (init ∅) Hv)).
  - exact (proj2 (batch_endpoint_accepts_all batch st_xy_busy Hv)).
Defined.

Lemma deque_append_grows buf r :
  (99 <= length buf)%nat -> (100 <= length (deque_append buf r))%nat.
Proof.
  intros Hb. unfold deque_append, maxlen, BATCH_SIZE.
  destruct (Z.leb_spec (100 * 2) (Z.of_nat (length buf)));
    rewrite length_app; cbn [length]; [|lia].
  destruct buf; cbn [tl length] in *; lia.
Qed.

(** X20. The single-reading endpoint never answers a validated request
    with an error: the 400 of its [except ValueError] cannot occur. With
    the lock free and fewer than 99 records waiting the response is
    [accepted]; in every other state the handler never resumes (the
    lock is held, or the flush at [BATCH_SIZE] waits for the lock the
    handler holds itself). *)
Theorem single_endpoint_accepts_or_hangs m st :
  valid_request m = true ->
  exists st',
    ingest_heart_rate m st
    = if negb (write_lock st) && (length (write_buffer st) <? 99)%nat
      then (Responds "accepted", st')
      else (Hangs, st').
Proof.
  intros Hv. destruct (valid_request_parses m Hv) as [dt E].
  unfold ingest_heart_rate, ingest_metric. rewrite E.
  destruct st as [buf lock fs].
  unfold mbind, M_bind, bind, with_lock, modify, gets, set_buffer, set_lock,
    ret, _flush_buffer, with_lock. cbn [write_lock write_buffer files].
  destruct lock; cbn [negb andb]; [eauto|].
  set (r := mk_row _ _ _ _ _).
  destruct (Nat.ltb_spec (length buf) 99) as [Hlt|Hge].
  - assert (Ea : deque_append buf r = buf ++ [r]).
    { unfold deque_append, maxlen, BATCH_SIZE.
      destruct (Z.leb_spec (100 * 2) (Z.of_nat (length buf))); [lia|easy]. }
    rewrite Ea, length_app. cbn [length]. unfold BATCH_SIZE.
    destruct (Z.leb_spec 100 (Z.of_nat (length buf + 1))); [lia|eauto].
  - pose proof (deque_append_grows buf r Hge) as Hg. unfold BATCH_SIZE.
    destruct (Z.leb_spec 100 (Z.of_nat (length (deque_append buf r))));
      [eauto|lia].
Qed.

Lemma single_endpoint_accepts_or_hangs_witness :
  let m := mk_request "device_a" "u" "2024-01-15T10:00:00Z" 70 in
  valid_request m = true
  /\ (exists st', ingest_heart_rate m (init ∅) = (Responds "accepted", st'))
  /\ (exists st', ingest_heart_rate m st_99 = (Hangs, st')).
Proof.
  intros m.
  assert (Hv : valid_request m = true) by (vm_compute; reflexivity).
  split; [exact Hv|]. split.
  - exact (single_endpoint_accepts_or_hangs m (init ∅) Hv).
  - exact (single_endpoint_accepts_or_hangs m st_99 Hv).
Defined.

Lemma query_metrics_files `{Sorter} st st' user start end_ device :
  files st' = files st ->
  query_metrics st' user start end_ device
  = query_metrics st user start end_ device.
Proof.
  intros E. unfold query_metrics, filtered_rows. now rewrite E.
Qed.

(** X21. An accepted reading is not yet visible: a request that the
    single-reading endpoint answers leaves every partition file as it
    was (the handler returns only when its record stays in the buffer),
    so the query endpoint answers every query as before the request. *)
Theorem accepted_reading_not_yet_visible `{Sorter} m st st' :
  ingest_heart_rate m st = (Responds "accepted", st') ->
  files st' = files st
  /\ forall user start end_ device,
       query_heart_rate user start end_ device st'
       = query_heart_rate user start end_ device st.
Proof.
  unfold ingest_heart_rate. intros Hi.
  destruct (ingest_metric _ _ _ _ st) as [[] st1|e st1|st1] eqn:E;
    [|destruct e; discriminate|discriminate].
  injection Hi as <-.
  apply ingest_metric_returns in E as (dt & _ & _ & -> & _).
  split; [reflexivity|]. intros user start end_ device.
  unfold query_heart_rate.
  now rewrite (query_metrics_files st (mk_state _ false (files st))).
Qed.

Lemma accepted_reading_not_yet_visible_witness :
  let m := mk_request "device_a" "u" "2024-01-15T10:00:00Z" 70 in
  let st' := mk_state [mk_row "device_a" "u" "2024-01-15T10:00:00Z" 70 day]
               false ∅ in
  ingest_heart_rate m (init ∅) = (Responds "accepted", st')
  /\ query_heart_rate (H := stable_sorter) "u" "2024-01-15T00:00:00Z"
       "2024-01-16T00:00:00Z" None st'
     = HTTPException 404
  /\ files st' = files (init ∅)
  /\ forall user start end_ device,
       query_heart_rate (H := stable_sorter) user start end_ device st'
       = query_heart_rate (H := stable_sorter) user start end_ device (init ∅).
Proof.
  intros m st'.
  assert (E : ingest_heart_rate m (init ∅) = (Responds "accepted", st'))
    by (vm_compute; reflexivity).
  split; [exact E|]. split; [vm_compute; reflexivity|].
  exact (accepted_reading_not_yet_visible (H := stable_sorter) m (init ∅) st' E).
Defined.
